(** * icva_parser: the VEA score extractor and the database loader

    A shallow embedding of [parse_VEA.py] and [load_VEA_to_database.py].

    Python [str] values are modelled as [string]; a character is a code
    point below 256 (the Latin-1 range), which covers every character the
    two scripts test for.  Exceptions are modelled by an explicit result
    type, the effects of the two [main] functions by state passing. *)

From stdpp Require Import gmap strings list pretty.
From Stdlib Require Import Ascii.
From Stdlib Require String.

(** ** Python values shared by the two scripts *)

(** The exceptions the two scripts can raise, with the argument each one
    carries. *)
Inductive exn :=
  | IndexError (msg : string)
  | StopIteration
  | ValueError (msg : string)
  | RuntimeError (msg : string)
  | KeyError (key : string)
  | FileNotFoundError (path : string)
  | ParserError (msg : string)
  | TypeError (msg : string)
  | IntegrityError (msg : string)
  | OperationalError (msg : string)
  | EmptyDataError (msg : string).

Inductive result (A : Type) :=
  | Ok (a : A)
  | Raise (e : exn).
Arguments Ok {A} a.
Arguments Raise {A} e.

(** [str(e)]: the text an exception prints as. *)
Definition str_exn (e : exn) : string :=
  match e with
  | IndexError m | ValueError m | RuntimeError m | ParserError m
  | TypeError m | IntegrityError m | OperationalError m
  | EmptyDataError m => m
  | StopIteration => ""
  | KeyError k => "'" +:+ k +:+ "'"
  | FileNotFoundError p => p
  end.

Module Py.

(** [c.isspace()] for a code point below 256: tab to carriage return,
    the four separators 28 to 31, space, NEL (133) and the no-break
    space (160). *)
Definition isspace (c : ascii) : bool :=
  match c with
  | "009" | "010" | "011" | "012" | "013"
  | "028" | "029" | "030" | "031" | " " | "133" | "160" => true
  | _ => false
  end%char.

(** [\d] on a code point below 256. *)
Definition isdigit (c : ascii) : bool :=
  match c with
  | "0" | "1" | "2" | "3" | "4" | "5" | "6" | "7" | "8" | "9" => true
  | _ => false
  end%char.

(** [[A-Z]]. *)
Definition isupper_AZ (c : ascii) : bool :=
  let n := nat_of_ascii c in (65 <=? n)%nat && (n <=? 90)%nat.

(** [s.split()] with no argument: the maximal runs of characters that
    are not white space, in order.  [cur] is the run being read. *)
Fixpoint split_go (cur : string) (s : string) : list string :=
  match s with
  | EmptyString => if decide (cur = "") then [] else [cur]
  | String c s' =>
      if isspace c
      then (if decide (cur = "") then [] else [cur]) ++ split_go "" s'
      else split_go (cur +:+ String c "") s'
  end.
Definition split (s : string) : list string := split_go "" s.

(** [sep.join(l)]. *)
Definition join (sep : string) (l : list string) : string :=
  String.concat sep l.

(** [l[a:b]] for indices that are not negative. *)
Definition slice {A} (l : list A) (a b : nat) : list A :=
  take (b - a) (drop a l).

(** [s.startswith(p)]. *)
Definition startswith (p s : string) : bool := String.prefix p s.

(** [s.lstrip()], [s.rstrip()] and [s.strip()]. *)
Fixpoint lstrip (s : string) : string :=
  match s with
  | String c s' => if isspace c then lstrip s' else s
  | EmptyString => EmptyString
  end.
Definition rstrip (s : string) : string :=
  String.rev (lstrip (String.rev s)).
Definition strip (s : string) : string := rstrip (lstrip s).

(** The line boundaries of [s.splitlines()] below code point 256. *)
Definition islinebreak (c : ascii) : bool :=
  match c with
  | "010" | "011" | "012" | "013" | "028" | "029" | "030" | "133" => true
  | _ => false
  end%char.

(** [s.splitlines()]: a carriage return followed by a line feed is one
    boundary, and no empty line follows a final boundary. *)
Fixpoint splitlines_go (cur : string) (s : string) : list string :=
  match s with
  | EmptyString => if decide (cur = "") then [] else [cur]
  | String c s' =>
      if islinebreak c then
        match c, s' with
        | "013"%char, String "010"%char s'' => cur :: splitlines_go "" s''
        | _, _ => cur :: splitlines_go "" s'
        end
      else splitlines_go (cur +:+ String c "") s'
  end.
Definition splitlines (s : string) : list string := splitlines_go "" s.

End Py.

(** ** The extractor, [parse_VEA.py] *)

Module Extractor.

(** The dictionary [parse_data_line] returns: ten keys, always the
    same, each holding a token or the joined name. *)
Record row := Row {
  icva_id : string;
  full_name : string;
  test_date : string;
  scale_score : string;
  total_percent_correct : string;
  anatomy : string;
  physiology : string;
  pharmacology : string;
  microbiology : string;
  pathology : string
}.

(** [re.match(r"\d{2}-[A-Z]{3}-\d{4}", token)] as a truth value: the
    pattern is tried at the start of the token only, and nothing is
    asked of what follows the eleven characters. *)
Definition date_match (token : string) : bool :=
  match token with
  | String d1 (String d2 (String h1 (String m1 (String m2 (String m3
      (String h2 (String y1 (String y2 (String y3 (String y4 _)))))))))) =>
      Py.isdigit d1 && Py.isdigit d2 && bool_decide (h1 = "-"%char)
      && Py.isupper_AZ m1 && Py.isupper_AZ m2 && Py.isupper_AZ m3
      && bool_decide (h2 = "-"%char)
      && Py.isdigit y1 && Py.isdigit y2 && Py.isdigit y3 && Py.isdigit y4
  | _ => false
  end.

(** [next(i for i, token in enumerate(tokens) if re.match(..., token))]:
    the index of the first matching token, counted from [i]; [None]
    stands for the exhausted generator. *)
Fixpoint date_index_from (i : nat) (tokens : list string) : option nat :=
  match tokens with
  | [] => None
  | t :: ts => if date_match t then Some i else date_index_from (S i) ts
  end.
Definition find_date_index (tokens : list string) : option nat :=
  date_index_from 0 tokens.

Definition scores_error (n : nat) (line : string) : string :=
  "Expected 7 scores, got " +:+ pretty n +:+ " in line: " +:+ line.

(** The dictionary built from [scores[0]] to [scores[6]]. *)
Definition build_row (icva name date : string) (scores : list string)
  : result row :=
  match scores with
  | s0 :: s1 :: s2 :: s3 :: s4 :: s5 :: s6 :: _ =>
      Ok (Row icva name date s0 s1 s2 s3 s4 s5 s6)
  | _ => Raise (IndexError "list index out of range")
  end.

Definition parse_data_line (line : string) : result row :=
  let tokens := Py.split line in
  match tokens !! 0%nat with
  | None => Raise (IndexError "list index out of range")
  | Some icva =>
      match find_date_index tokens with
      | None => Raise StopIteration
      | Some date_index =>
          let name_tokens := Py.slice tokens 1 date_index in
          let name := Py.join " " name_tokens in
          match tokens !! date_index with
          | None => Raise (IndexError "list index out of range")
          | Some date =>
              let scores := drop (date_index + 1) tokens in
              if decide (length scores ≠ 7%nat)
              then Raise (ValueError (scores_error (length scores) line))
              else build_row icva name date scores
          end
      end
  end.

(** *** The output file: [csv.DictWriter] with the default dialect *)

Definition fieldnames : list string :=
  ["ICVA ID"; "Full Name"; "Test Date"; "Scale Score";
   "Total Percent Correct"; "Anatomy"; "Physiology"; "Pharmacology";
   "Microbiology"; "Pathology"].

(** [[row.get(key) for key in fieldnames]]. *)
Definition row_values (r : row) : list string :=
  [icva_id r; full_name r; test_date r; scale_score r;
   total_percent_correct r; anatomy r; physiology r; pharmacology r;
   microbiology r; pathology r].

Definition DQUOTE : ascii := "034"%char.
Definition CR : ascii := "013"%char.
Definition LF : ascii := "010"%char.
Definition NUL : ascii := "000"%char.
Definition newline : string := String LF "".

(** The characters that make the writer quote a field under
    [QUOTE_MINIMAL]: the delimiter, the quote character and the
    characters of the line terminator. *)
Definition csv_special (c : ascii) : bool :=
  bool_decide (c = ","%char) || bool_decide (c = DQUOTE)
  || bool_decide (c = CR) || bool_decide (c = LF).

Fixpoint needs_quote (f : string) : bool :=
  match f with
  | EmptyString => false
  | String c f' => csv_special c || needs_quote f'
  end.

(** Every quote character of the field is written twice. *)
Fixpoint double_quotes (f : string) : string :=
  match f with
  | EmptyString => EmptyString
  | String c f' =>
      if bool_decide (c = DQUOTE)
      then String DQUOTE (String DQUOTE (double_quotes f'))
      else String c (double_quotes f')
  end.

Definition write_field (f : string) : string :=
  if needs_quote f
  then String DQUOTE (double_quotes f +:+ String DQUOTE "")
  else f.

(** [writer.writerow(fields)]: a row that is one empty field is
    written as a pair of quotes. *)
Definition writerow (fields : list string) : string :=
  match fields with
  | [EmptyString] => String DQUOTE (String DQUOTE (String CR newline))
  | _ => Py.join "," (write_field <$> fields) +:+ String CR newline
  end.

(** The text of [parsed_data.csv]: [writeheader()], then one
    [writerow] per parsed row. *)
Definition csv_text (parsed_rows : list row) : string :=
  writerow fieldnames
  +:+ Py.join "" (writerow <$> (row_values <$> parsed_rows)).

(** *** [main] *)

(** The text [main] builds from the pages of the document. *)
Definition full_text (pages : list string) : string :=
  fold_left (fun acc page => acc +:+ page +:+ newline) pages "".

Definition data_lines (lines : list string) : list string :=
  Py.strip
    <$> filter (fun l => Py.startswith "ICVA" (Py.strip l) = true) lines.

(** What the parsing loop builds: the rows appended so far and the
    texts printed so far. *)
Record loop_state := LoopState {
  parsed_rows : list row;
  printed : list string
}.

Definition loop_body (st : loop_state) (line : string) : loop_state :=
  match parse_data_line line with
  | Ok r => LoopState (parsed_rows st ++ [r]) (printed st)
  | Raise e =>
      LoopState (parsed_rows st)
        (printed st ++
           ["Error parsing line: " +:+ line +:+ newline +:+ str_exn e])
  end.

Definition parse_loop (lines : list string) : loop_state :=
  fold_left loop_body lines (LoopState [] []).

Definition expected_students : nat := 107.

Record outcome := Outcome {
  stdout : list string;
  output_file : string
}.

Definition main (pages : list string) : outcome :=
  let lines := Py.splitlines (full_text pages) in
  let st := parse_loop (data_lines lines) in
  let n := length (parsed_rows st) in
  let report :=
    if decide (n = expected_students)
    then "Successfully parsed " +:+ pretty n +:+ " students."
    else "Warning: Expected " +:+ pretty expected_students
         +:+ " students, but parsed " +:+ pretty n +:+ "." in
  Outcome (printed st ++ [report; "Data saved to parsed_data.csv"])
          (csv_text (parsed_rows st)).

End Extractor.

(** ** The data frame the loader works on, and [pd.read_csv]

    A file is the text it holds: it is read in the encoding it was
    written in. *)

Module Pandas.

Record date := Date { year : nat; month : nat; day : nat }.

(** A value of a data frame: a missing value, a text, a calendar date
    or a missing date.  The texts are kept as they stand in the file:
    the choice [pd.read_csv] makes between integer, floating and text
    columns from the texts that are not missing is not modelled. *)
Inductive cell :=
  | NaN
  | Str (s : string)
  | Day (d : date)
  | NaT.

Global Instance date_eq_dec : EqDecision date.
Proof. solve_decision. Defined.
Global Instance cell_eq_dec : EqDecision cell.
Proof. solve_decision. Defined.

(** A frame: the column names and the rows, each row holding one value
    per column. *)
Record dataframe := DataFrame {
  columns : list string;
  data : list (list cell)
}.

(** The position of column [name], the first one of that name. *)
Fixpoint column_index (name : string) (cols : list string) : option nat :=
  match cols with
  | [] => None
  | c :: cs =>
      if decide (c = name) then Some 0%nat
      else S <$> column_index name cs
  end.

(** The value of column [name] in row [k]. *)
Definition at_ (df : dataframe) (name : string) (k : nat) : option cell :=
  i ← column_index name (columns df);
  r ← data df !! k;
  r !! i.

(** *** The tokenizer of the C parser, with the default settings

    Comma delimiter, double quote as quote character, doubled quotes
    inside quoted fields, no escape character, no comment character,
    blank lines skipped. *)
Inductive tstate :=
  | START_RECORD
  | START_FIELD
  | IN_FIELD
  | IN_QUOTED_FIELD
  | QUOTE_IN_QUOTED_FIELD
  | EAT_CRNL
  | EAT_CRNL_NOP
  | WHITESPACE_LINE.

(** The tokenizer: its state, the characters pushed for the field
    being read, the fields ended on the line being read, the lines
    ended so far. *)
Record parser := Parser {
  state : tstate;
  field : string;
  fields : list string;
  lines : list (list string)
}.

Definition PUSH_CHAR (c : ascii) (st : tstate) (p : parser) : parser :=
  Parser st (field p +:+ String c "") (fields p) (lines p).
Definition END_FIELD (st : tstate) (p : parser) : parser :=
  Parser st "" (fields p ++ [field p]) (lines p).
Definition END_LINE (p : parser) : parser :=
  Parser START_RECORD "" [] (lines p ++ [fields p]).
Definition GOTO (st : tstate) (p : parser) : parser :=
  Parser st (field p) (fields p) (lines p).

Definition IS_TERMINATOR (c : ascii) : bool := bool_decide (c = Extractor.LF).
Definition IS_CARRIAGE (c : ascii) : bool := bool_decide (c = Extractor.CR).
Definition IS_QUOTE (c : ascii) : bool := bool_decide (c = Extractor.DQUOTE).
Definition IS_DELIMITER (c : ascii) : bool := bool_decide (c = ","%char).
Definition IS_WHITESPACE (c : ascii) : bool :=
  bool_decide (c = " "%char) || bool_decide (c = "009"%char).

Definition step_IN_FIELD (p : parser) (c : ascii) : parser :=
  if IS_TERMINATOR c then END_LINE (END_FIELD START_RECORD p)
  else if IS_CARRIAGE c then END_FIELD EAT_CRNL p
  else if IS_DELIMITER c then END_FIELD START_FIELD p
  else PUSH_CHAR c IN_FIELD p.

Definition step_START_FIELD (p : parser) (c : ascii) : parser :=
  if IS_TERMINATOR c then END_LINE (END_FIELD START_RECORD p)
  else if IS_CARRIAGE c then END_FIELD EAT_CRNL p
  else if IS_QUOTE c then GOTO IN_QUOTED_FIELD p
  else if IS_DELIMITER c then END_FIELD START_FIELD p
  else PUSH_CHAR c IN_FIELD p.

(** At the start of a record an empty line is skipped, and a line
    that starts with blanks is first read as a line of blanks. *)
Definition step_START_RECORD (p : parser) (c : ascii) : parser :=
  if IS_TERMINATOR c then GOTO START_RECORD p
  else if IS_CARRIAGE c then GOTO EAT_CRNL_NOP p
  else if IS_WHITESPACE c then PUSH_CHAR c WHITESPACE_LINE p
  else step_START_FIELD p c.

(** In [WHITESPACE_LINE] the blanks read so far are kept in [field]:
    when the line turns out not to be blank the tokenizer goes back to
    the start of the line (the character after the last line feed) and
    reads it as a record, which pushes those blanks as the start of its
    first field. *)
Definition step (p : parser) (c : ascii) : parser :=
  match state p with
  | START_RECORD => step_START_RECORD p c
  | START_FIELD => step_START_FIELD p c
  | IN_FIELD => step_IN_FIELD p c
  | IN_QUOTED_FIELD =>
      if IS_QUOTE c then GOTO QUOTE_IN_QUOTED_FIELD p
      else PUSH_CHAR c IN_QUOTED_FIELD p
  | QUOTE_IN_QUOTED_FIELD =>
      if IS_QUOTE c then PUSH_CHAR c IN_QUOTED_FIELD p
      else if IS_DELIMITER c then END_FIELD START_FIELD p
      else if IS_TERMINATOR c then END_LINE (END_FIELD START_RECORD p)
      else if IS_CARRIAGE c then END_FIELD EAT_CRNL p
      else PUSH_CHAR c IN_FIELD p
  | EAT_CRNL =>
      if IS_TERMINATOR c then END_LINE p
      else if IS_DELIMITER c then END_FIELD START_FIELD (END_LINE p)
      else step_START_RECORD (END_LINE p) c
  | EAT_CRNL_NOP =>
      if IS_TERMINATOR c || IS_DELIMITER c then GOTO START_RECORD p
      else step_START_RECORD (GOTO START_RECORD p) c
  | WHITESPACE_LINE =>
      if IS_TERMINATOR c then Parser START_RECORD "" (fields p) (lines p)
      else if IS_CARRIAGE c then Parser EAT_CRNL_NOP "" (fields p) (lines p)
      else if IS_WHITESPACE c then PUSH_CHAR c WHITESPACE_LINE p
      else step_IN_FIELD p c
  end.

Fixpoint run (p : parser) (s : string) : parser :=
  match s with
  | EmptyString => p
  | String c s' => run (step p c) s'
  end.

(** The end of the input: a field or line being read is ended, and a
    quoted field left open is an error. *)
Definition handle_eof (p : parser) : result (list (list string)) :=
  match state p with
  | START_RECORD | WHITESPACE_LINE | EAT_CRNL_NOP => Ok (lines p)
  | IN_QUOTED_FIELD =>
      Raise (ParserError "Error tokenizing data. C error: EOF inside string")
  | IN_FIELD | START_FIELD | QUOTE_IN_QUOTED_FIELD =>
      Ok (lines (END_LINE (END_FIELD START_RECORD p)))
  | EAT_CRNL => Ok (lines (END_LINE p))
  end.

(** *** From the tokens to the frame *)

(** The texts read as a missing value (the default [na_values]). *)
Definition na_values : list string :=
  [""; "#N/A"; "#N/A N/A"; "#NA"; "-1.#IND"; "-1.#QNAN"; "-NaN"; "-nan";
   "1.#IND"; "1.#QNAN"; "<NA>"; "N/A"; "NA"; "NULL"; "NaN"; "None";
   "n/a"; "nan"; "null"].

(** A token is handed over as a C string: it stops at its first NUL
    character. *)
Fixpoint c_string (f : string) : string :=
  match f with
  | EmptyString => EmptyString
  | String c f' =>
      if bool_decide (c = Extractor.NUL) then EmptyString
      else String c (c_string f')
  end.

Definition is_na (f : string) : bool :=
  bool_decide (c_string f ∈ na_values).

Definition to_cell (f : string) : cell :=
  if is_na f then NaN else Str (c_string f).

(** The names of the columns: an empty name in position [i] becomes
    [Unnamed: i]. *)
Definition column_name (i : nat) (f : string) : string :=
  if decide (c_string f = "") then "Unnamed: " +:+ pretty i
  else c_string f.

Definition pad (w : nat) (r : list string) : list string :=
  r ++ replicate (w - length r) "".

Definition too_many_fields (w n : nat) : exn :=
  ParserError ("Error tokenizing data. C error: Expected " +:+ pretty w
               +:+ " fields, saw " +:+ pretty n).

(** The rows after the first data row: a row with more fields than the
    row before it is an error, a shorter one is filled with empty
    fields. *)
Fixpoint shape_rest (w : nat) (rows : list (list string))
  : result (list (list string)) :=
  match rows with
  | [] => Ok []
  | r :: rows' =>
      if decide (w < length r)%nat then Raise (too_many_fields w (length r))
      else match shape_rest w rows' with
           | Ok rs => Ok (pad w r :: rs)
           | Raise e => Raise e
           end
  end.

(** The data rows under a header of [k] names: the first data row may
    be longer than the header and then sets the width. *)
Definition shape (k : nat) (rows : list (list string))
  : result (nat * list (list string)) :=
  match rows with
  | [] => Ok (k, [])
  | r :: rows' =>
      let w := k `max` length r in
      match shape_rest w rows' with
      | Ok rs => Ok (w, pad w r :: rs)
      | Raise e => Raise e
      end
  end.

(** The frame of the lines read: the first line names the columns;
    when the rows are wider than the header, their leading fields are
    the index and are not columns.  A header that names two columns
    alike is outside this model ([None]). *)
Definition frame_of (lines : list (list string))
  : option (result dataframe) :=
  match lines with
  | [] => Some (Raise (EmptyDataError "No columns to parse from file"))
  | header :: rows =>
      let names := imap column_name header in
      let k := length header in
      match shape k rows with
      | Raise e => Some (Raise e)
      | Ok (w, rs) =>
          if decide (NoDup names)
          then Some (Ok (DataFrame names
                           ((fun r => to_cell <$> drop (w - k) r) <$> rs)))
          else None
      end
  end.

(** [pd.read_csv(path)] on the text of the file.  An error in the
    shape of a line is met while the text is read, so it comes before
    the error of a quoted field left open at the end. *)
Definition read_csv (text : string) : option (result dataframe) :=
  let p := run (Parser START_RECORD "" [] []) text in
  match handle_eof p with
  | Ok all => frame_of all
  | Raise e =>
      match frame_of (lines p) with
      | Some (Raise (ParserError m)) => Some (Raise (ParserError m))
      | _ => Some (Raise e)
      end
  end.

End Pandas.

(** ** The loader, [load_VEA_to_database.py] *)

Module Loader.

Import Pandas.

(** *** The world the loader runs in *)

(** A row of a table: the value of each column that was given one. *)
Definition dbrow := list (string * cell).

(** A table of the database: the column its primary key is on, when it
    has one, and its rows.  The types and lengths of the columns are
    not modelled: checking them can only make more statements fail. *)
Record table := Table {
  primary_key : option string;
  rows : list dbrow
}.

(** What the loader does to the outside, in the order it does it. *)
Inductive event :=
  | ReadCsv (path : string)
  | Connect
  | CreateTableIfNotExists (name : string)
  | CreateTable (name : string)
  | Insert (name : string) (count : nat)
  | Commit
  | Rollback.

(** The process environment, the settings of the [.env] file, the
    files by path, the tables of the database the engine reaches, the
    two output streams and the events so far. *)
Record world := World {
  environ : gmap string string;
  dotenv : gmap string string;
  files : gmap string string;
  tables : gmap string table;
  stdout : list string;
  stderr : list string;
  trace : list event
}.

(** Computations on the world that return or raise. *)
Definition M (A : Type) : Type := world -> result A * world.

Definition ret {A} (a : A) : M A := fun w => (Ok a, w).
Definition raise {A} (e : exn) : M A := fun w => (Raise e, w).
Definition bind {A B} (m : M A) (k : A -> M B) : M B :=
  fun w =>
    match m w with
    | (Ok a, w') => k a w'
    | (Raise e, w') => (Raise e, w')
    end.
Definition lift {A} (r : result A) : M A := fun w => (r, w).

Notation "'let*' x ':=' m 'in' k" := (bind m (fun x => k))
  (at level 10, x name, m at level 100, k at level 200).

Definition emit (e : event) : M unit :=
  fun w => (Ok (), World (environ w) (dotenv w) (files w) (tables w)
                         (stdout w) (stderr w) (trace w ++ [e])).
Definition print (s : string) : M unit :=
  fun w => (Ok (), World (environ w) (dotenv w) (files w) (tables w)
                         (stdout w ++ [s]) (stderr w) (trace w)).
Definition print_err (s : string) : M unit :=
  fun w => (Ok (), World (environ w) (dotenv w) (files w) (tables w)
                         (stdout w) (stderr w ++ [s]) (trace w)).
Definition set_tables (t : gmap string table) : M unit :=
  fun w => (Ok (), World (environ w) (dotenv w) (files w) t
                         (stdout w) (stderr w) (trace w)).
Definition get_tables : M (gmap string table) :=
  fun w => (Ok (tables w), w).

(** [load_dotenv()]: the settings of the file are added to the
    environment, where a variable already set keeps its value. *)
Definition load_dotenv : M unit :=
  fun w => (Ok (), World (environ w ∪ dotenv w) (dotenv w) (files w)
                         (tables w) (stdout w) (stderr w) (trace w)).
Definition getenv (k : string) : M (option string) :=
  fun w => (Ok (environ w !! k), w).

(** *** [load_env] *)

(** The dictionary of settings, in the order its keys are inserted;
    [None] is the value of a variable that is not set. *)
Definition config := list (string * option string).

(** [v in (None, "",)]. *)
Definition unset (v : option string) : bool :=
  match v with
  | None => true
  | Some s => bool_decide (s = "")
  end.

Definition missing_of (cfg : config) : list string :=
  (List.filter (fun kv => unset kv.2 && negb (String.eqb kv.1 "table"))
     cfg).*1.

Definition load_env : M config :=
  let* _ := load_dotenv in
  let* host := getenv "DB_HOST" in
  let* user := getenv "DB_USER" in
  let* password := getenv "DB_PASS" in
  let* database := getenv "DB_NAME" in
  let* table := getenv "DB_TABLE" in
  let cfg := [("host", host); ("user", user); ("password", password);
              ("database", database); ("table", table)] in
  let missing := missing_of cfg in
  if decide (missing = [])
  then ret cfg
  else raise (RuntimeError ("Missing required env vars: "
                            +:+ Py.join ", " missing)).

(** [cfg[k]]. *)
Definition cfg_get (cfg : config) (k : string) : result (option string) :=
  match list_find (fun kv => kv.1 = k) cfg with
  | Some (_, (_, v)) => Ok v
  | None => Raise (KeyError k)
  end.

(** How a setting is written inside an f-string. *)
Definition fmt (v : option string) : string := default "None" v.

(** *** The database *)

(** [CREATE TABLE IF NOT EXISTS] with the primary key on [icva_id],
    run inside [engine.begin()]. *)
Definition create_table (table_name : string) : M unit :=
  let* _ := emit Connect in
  let* _ := emit (CreateTableIfNotExists table_name) in
  let* tbls := get_tables in
  let* _ := match tbls !! table_name with
            | Some _ => ret ()
            | None =>
                set_tables (<[table_name := Table (Some "icva_id") []]> tbls)
            end in
  emit Commit.

(** The rows of a frame as the insert statement sends them. *)
Definition to_rows (df : dataframe) : list dbrow :=
  (fun r => zip (columns df) r) <$> data df.

Definition lookup_column (name : string) (r : dbrow) : option cell :=
  (list_find (fun kv => kv.1 = name) r) ≫= (fun x => Some x.2.2).

(** A missing value is sent as [NULL]. *)
Definition is_null (c : cell) : bool :=
  match c with
  | NaN | NaT => true
  | _ => false
  end.

Definition two_digits (n : nat) : string :=
  if (n <? 10)%nat then "0" +:+ pretty n else pretty n.

(** A value as the error of the database shows it. *)
Definition cell_text (c : cell) : string :=
  match c with
  | Str s => s
  | Day d => pretty (year d) +:+ "-" +:+ two_digits (month d) +:+ "-"
             +:+ two_digits (day d)
  | NaN | NaT => "NULL"
  end.

(** One row of the statement against the rows the table holds by then:
    the value of the key must be given, must not be [NULL], and must
    not be the key of a row of the table. *)
Definition insert_row (pk : option string) (held : list dbrow) (r : dbrow)
  : result (list dbrow) :=
  match pk with
  | None => Ok (held ++ [r])
  | Some key =>
      match lookup_column key r with
      | None => Raise (IntegrityError ("Field '" +:+ key
                         +:+ "' doesn't have a default value"))
      | Some v =>
          if is_null v
          then Raise (IntegrityError ("Column '" +:+ key
                         +:+ "' cannot be null"))
          else if bool_decide (Some v ∈ lookup_column key <$> held)
          then Raise (IntegrityError ("Duplicate entry '" +:+ cell_text v
                         +:+ "' for key 'PRIMARY'"))
          else Ok (held ++ [r])
      end
  end.

(** The statement as a whole: every row in order; the first row that
    is refused fails the statement. *)
Fixpoint insert_rows (pk : option string) (held : list dbrow)
    (new : list dbrow) : result (list dbrow) :=
  match new with
  | [] => Ok held
  | r :: new' =>
      match insert_row pk held r with
      | Ok held' => insert_rows pk held' new'
      | Raise e => Raise e
      end
  end.

(** [with engine.begin() as conn: df.to_sql(name, conn,
    if_exists="append", index=False, method="multi")] for a table
    name: one statement for all the rows, committed when it succeeds
    and rolled back when it fails.  A table that does not exist is
    first created from the frame, without a key. *)
Definition to_sql (name : string) (df : dataframe) : M unit :=
  let* _ := emit Connect in
  let* tbls := get_tables in
  let* t := match tbls !! name with
            | Some t => ret t
            | None => let* _ := emit (CreateTable name) in
                      ret (Table None [])
            end in
  let* _ := emit (Insert name (length (data df))) in
  match insert_rows (primary_key t) (rows t) (to_rows df) with
  | Ok rs =>
      let* _ := set_tables (<[name := Table (primary_key t) rs]> tbls) in
      emit Commit
  | Raise e =>
      let* _ := emit Rollback in
      raise e
  end.

(** [f"{n:,}"]: the decimal digits of [n] in groups of three. *)
Fixpoint commas_go (rev_digits : list ascii) (i : nat) (acc : string)
  : string :=
  match rev_digits with
  | [] => acc
  | d :: ds =>
      commas_go ds (S i)
        (if (0 <? i)%nat && (i mod 3 =? 0)%nat
         then String d (String ","%char acc) else String d acc)
  end.
Definition with_commas (n : nat) : string :=
  commas_go (rev (String.list_ascii_of_string (pretty n))) 0 "".

(** *** What the loader takes from its libraries

    The reading of a delimited text by [pd.read_csv], the reading of
    one text under the format [%d-%b-%Y] by [pd.to_datetime], the
    building of an engine from its URL by [create_engine] (which
    opens no connection), and what [to_sql] does when it is given
    [None] for the name of the table. *)
Class Libraries := {
  pd_read_csv : string -> result dataframe;
  strptime_dby : string -> option date;
  create_engine : string -> result unit;
  to_sql_unnamed : dataframe -> M unit
}.

Section Main.

Context `{Libraries}.

(** One value of [pd.to_datetime(col, format="%d-%b-%Y").dt.date]. *)
Definition to_date (c : cell) : result cell :=
  match c with
  | Str s =>
      match strptime_dby s with
      | Some d => Ok (Day d)
      | None => Raise (ValueError ("time data '" +:+ s
                         +:+ "' does not match format '%d-%b-%Y'"))
      end
  | Day d => Ok (Day d)
  | NaN | NaT => Ok NaT
  end.

(** The column at position [i], row after row. *)
Fixpoint convert_column (i : nat) (rs : list (list cell))
  : result (list (list cell)) :=
  match rs with
  | [] => Ok []
  | r :: rs' =>
      match r !! i with
      | None => Raise (IndexError "list index out of range")
      | Some c =>
          match to_date c with
          | Raise e => Raise e
          | Ok c' =>
              match convert_column i rs' with
              | Raise e => Raise e
              | Ok rs'' => Ok (<[i := c']> r :: rs'')
              end
          end
      end
  end.

(** [if "test_date" in df.columns: df["test_date"] = ...]. *)
Definition normalize_dates (df : dataframe) : result dataframe :=
  match column_index "test_date" (columns df) with
  | None => Ok df
  | Some i =>
      match convert_column i (data df) with
      | Ok rs => Ok (DataFrame (columns df) rs)
      | Raise e => Raise e
      end
  end.

Definition read_file (path : string) : M dataframe :=
  fun w =>
    match files w !! path with
    | None => (Raise (FileNotFoundError path), w)
    | Some text =>
        (let* _ := emit (ReadCsv path) in lift (pd_read_csv text)) w
    end.

(** The two signs of the printed texts that lie outside Latin-1 stand
    as their UTF-8 bytes. *)
Definition main (csv_path : string) : M unit :=
  let* cfg := load_env in
  let* user := lift (cfg_get cfg "user") in
  let* password := lift (cfg_get cfg "password") in
  let* host := lift (cfg_get cfg "host") in
  let* database := lift (cfg_get cfg "database") in
  let engine_url := "mysql+pymysql://" +:+ fmt user +:+ ":"
                    +:+ fmt password +:+ "@" +:+ fmt host +:+ "/"
                    +:+ fmt database in
  let* _ := lift (create_engine engine_url) in
  let* df := read_file csv_path in
  let* df := lift (normalize_dates df) in
  let* table := lift (cfg_get cfg "table") in
  let* _ := create_table (fmt table) in
  let* _ := match table with
            | Some name => to_sql name df
            | None => to_sql_unnamed df
            end in
  print ("✅ Loaded " +:+ with_commas (length (data df))
         +:+ " rows into `" +:+ fmt table +:+ "`.").

(** How the script ends: a status, or an exception nobody caught. *)
Inductive ending :=
  | Exit (status : nat)
  | Uncaught (e : exn).

(** The script: [--csv] and its default, the test that the file
    exists, then [main]. *)
Definition script (csv_arg : option string) (w : world)
  : ending * world :=
  let csv := default "vea_2025_results.csv" csv_arg in
  match files w !! csv with
  | None =>
      (Exit 1, (print_err ("❌ CSV file '" +:+ csv +:+ "' not found.") w).2)
  | Some _ =>
      match main csv w with
      | (Ok _, w') => (Exit 0, w')
      | (Raise e, w') => (Uncaught e, w')
      end
  end.

End Main.

End Loader.

(** * The vocabulary of the statements *)

Import Extractor.

(** The row a line adds to the rows of the loop, and the text it makes
    the loop print. *)
Definition row_of (line : string) : option row :=
  match parse_data_line line with
  | Ok r => Some r
  | Raise _ => None
  end.

Definition error_of (line : string) : option string :=
  match parse_data_line line with
  | Ok _ => None
  | Raise e =>
      Some ("Error parsing line: " +:+ line +:+ newline +:+ str_exn e)
  end.

(** A token: a text that is not empty and holds no white space. *)
Fixpoint no_space (s : string) : bool :=
  match s with
  | EmptyString => true
  | String c s' => negb (Py.isspace c) && no_space s'
  end.
Definition token (s : string) : Prop := s ≠ "" /\ no_space s = true.

(** The settings [load_env] requires: the key of the dictionary and
    the variable it is read from. *)
Definition required : list (string * string) :=
  [("host", "DB_HOST"); ("user", "DB_USER"); ("password", "DB_PASS");
   ("database", "DB_NAME")].

(** The environment [load_env] reads, once the settings file is
    loaded. *)
Definition settings (w : Loader.world) : gmap string string :=
  Loader.environ w ∪ Loader.dotenv w.

Definition with_settings (w : Loader.world) : Loader.world :=
  Loader.World (settings w) (Loader.dotenv w) (Loader.files w)
    (Loader.tables w) (Loader.stdout w) (Loader.stderr w) (Loader.trace w).

Definition missing_settings (w : Loader.world) : list string :=
  (List.filter (fun kv => Loader.unset (settings w !! kv.2)) required).*1.

Definition engine_url (w : Loader.world) : string :=
  "mysql+pymysql://" +:+ Loader.fmt (settings w !! "DB_USER") +:+ ":"
  +:+ Loader.fmt (settings w !! "DB_PASS") +:+ "@"
  +:+ Loader.fmt (settings w !! "DB_HOST") +:+ "/"
  +:+ Loader.fmt (settings w !! "DB_NAME").

(** ** One choice of the libraries, to run the loader on examples *)

Definition digit_value (c : ascii) : nat := (nat_of_ascii c - 48)%nat.

Definition upper (c : ascii) : ascii :=
  let n := nat_of_ascii c in
  if (97 <=? n)%nat && (n <=? 122)%nat then ascii_of_nat (n - 32) else c.

Definition month_names : list string :=
  ["JAN"; "FEB"; "MAR"; "APR"; "MAY"; "JUN";
   "JUL"; "AUG"; "SEP"; "OCT"; "NOV"; "DEC"].

Definition leap (y : nat) : bool :=
  ((y mod 4 =? 0) && negb (y mod 100 =? 0) || (y mod 400 =? 0))%nat.

Definition days_in (y m : nat) : nat :=
  match m with
  | 2 => if leap y then 29 else 28
  | 4 | 6 | 9 | 11 => 30
  | _ => 31
  end%nat.

(** The texts of the shape [dd-Mon-yyyy] that name a day of the
    calendar. *)
Definition strptime_dd_Mon_yyyy (s : string) : option Pandas.date :=
  match s with
  | String d1 (String d2 (String "-" (String m1 (String m2 (String m3
      (String "-" (String y1 (String y2 (String y3 (String y4
      EmptyString)))))))))) =>
      if forallb Py.isdigit [d1; d2; y1; y2; y3; y4] then
        let d := (10 * digit_value d1 + digit_value d2)%nat in
        let y := (1000 * digit_value y1 + 100 * digit_value y2
                  + 10 * digit_value y3 + digit_value y4)%nat in
        m ← fst <$> list_find
               (fun n => n = String (upper m1) (String (upper m2)
                                       (String (upper m3) "")))
               month_names;
        if (1 <=? d)%nat && (d <=? days_in y (S m))%nat
        then Some (Pandas.Date y (S m) d) else None
      else None
  | _ => None
  end.

Definition sample_libraries : Loader.Libraries := {|
  Loader.pd_read_csv text :=
    default (Raise (ParserError "Duplicate names are not modelled"))
            (Pandas.read_csv text);
  Loader.strptime_dby := strptime_dd_Mon_yyyy;
  Loader.create_engine _ := Ok ();
  Loader.to_sql_unnamed _ := Loader.raise (TypeError "table name is None")
|}.

(** ** The loader up to the insert *)

(** The dictionary [load_env] builds from the settings. *)
Definition config_of (w : Loader.world) : Loader.config :=
  [("host", settings w !! "DB_HOST"); ("user", settings w !! "DB_USER");
   ("password", settings w !! "DB_PASS");
   ("database", settings w !! "DB_NAME");
   ("table", settings w !! "DB_TABLE")].

(** The world when [main] has read the file and found the table
    [name] in place: the settings are loaded and the events are the
    reading of the file and the statement that creates the table if it
    does not exist. *)
Definition before_insert (csv_path name : string) (w : Loader.world)
  : Loader.world :=
  Loader.World (settings w) (Loader.dotenv w) (Loader.files w)
    (Loader.tables w) (Loader.stdout w) (Loader.stderr w)
    (Loader.trace w ++ [Loader.ReadCsv csv_path; Loader.Connect;
                        Loader.CreateTableIfNotExists name; Loader.Commit]).

(** ** The worlds, frames and records of the examples *)

(** The world of the example of the docstring, with [DB_TABLE] left
    out. *)
Definition docstring_world : Loader.world :=
  Loader.World ∅
    {[ "DB_HOST" := "cvmdb.westernu.edu"; "DB_USER" := "your_user";
       "DB_PASS" := "your_password"; "DB_NAME" := "cvm_prod" ]}
    ∅ ∅ [] [] [].

(** A world where the password is not set and the user is empty. *)
Definition incomplete_world : Loader.world :=
  Loader.World {[ "DB_USER" := "" ]}
    {[ "DB_HOST" := "cvmdb.westernu.edu"; "DB_USER" := "your_user";
       "DB_NAME" := "cvm_prod" ]}
    {[ "vea_2025_results.csv" := "icva_id" ]} ∅ [] [] [].

(** A world where the table holds the row of ICVA0001 and the file
    brings that id again. *)
Definition rerun_world : Loader.world :=
  Loader.World ∅
    {[ "DB_HOST" := "cvmdb.westernu.edu"; "DB_USER" := "your_user";
       "DB_PASS" := "your_password"; "DB_NAME" := "cvm_prod";
       "DB_TABLE" := "vea_2025" ]}
    {[ "vea_2025_results.csv" :=
         "icva_id,full_name,test_date,vea_score
ICVA0002,Bob Stone,16-MAY-2025,431
ICVA0001,Jane Q Public,15-MAY-2025,450
" ]}
    {[ "vea_2025" :=
         Loader.Table (Some "icva_id")
           [[("icva_id", Pandas.Str "ICVA0001");
             ("full_name", Pandas.Str "Jane Public")]] ]}
    [] [] [].

(** A frame with a date column, and one without. *)
Definition dated_frame : Pandas.dataframe :=
  Pandas.DataFrame ["icva_id"; "test_date"; "vea_score"]
    [[Pandas.Str "ICVA0001"; Pandas.Str "15-MAY-2025"; Pandas.Str "450"];
     [Pandas.Str "ICVA0002"; Pandas.NaN; Pandas.Str "431"]].

Definition undated_frame : Pandas.dataframe :=
  Pandas.DataFrame ["ICVA ID"; "Test Date"]
    [[Pandas.Str "ICVA0001"; Pandas.Str "15-MAY-2025"]].

(** The record of a candidate whose name is the text NA. *)
Definition na_record : row :=
  Row "ICVA0001" "NA" "15-MAY-2025" "450" "88" "90" "85" "92" "88" "91".

(** ** The tokenizer on what the writer wrote *)

Import Pandas.

(** The characters the writer leaves bare. *)
Definition bare (c : ascii) : Prop := csv_special c = false.

(** A field being read: in [IN_FIELD], or in [WHITESPACE_LINE] with
    only blanks so far. *)
Definition reading (st : tstate) : Prop :=
  st = IN_FIELD \/ st = WHITESPACE_LINE.

(** The states a written field leaves the tokenizer in: the delimiter
    ends the field from each of them. *)
Definition pending (st : tstate) (f : string) : Prop :=
  st = IN_FIELD \/ st = QUOTE_IN_QUOTED_FIELD \/ st = WHITESPACE_LINE
  \/ ((st = START_FIELD \/ st = START_RECORD) /\ f = "").

(** ** The round trip *)



(** ** More vocabulary: the extractor *)

(** A text made of white space only. *)
Fixpoint all_space (s : string) : bool :=
  match s with
  | EmptyString => true
  | String c s' => Py.isspace c && all_space s'
  end.

(** What follows a line boundary [c] in [s]: the line feed after a
    carriage return belongs to the boundary. *)
Definition after_boundary (c : ascii) (s : string) : string :=
  match s with
  | String c' s' =>
      if bool_decide (c = CR) && bool_decide (c' = LF) then s' else s
  | EmptyString => EmptyString
  end.

(** The rows of one page of the document. *)
Definition page_rows (page : string) : list row :=
  omap row_of (data_lines (Py.splitlines (page +:+ newline))).

(** ** More vocabulary: the loader *)

(** The tables once [create_table] has run for [name]. *)
Definition created (name : string) (tbls : gmap string Loader.table)
  : gmap string Loader.table :=
  match tbls !! name with
  | Some _ => tbls
  | None => <[name := Loader.Table (Some "icva_id") []]> tbls
  end.

(** The table [main] finds under [name] when it comes to insert. *)
Definition found (name : string) (tbls : gmap string Loader.table)
  : Loader.table :=
  default (Loader.Table (Some "icva_id") []) (tbls !! name).

(** The world when [main] comes to insert: the settings loaded, the
    file read, the table created if it was not there. *)
Definition at_insert (csv_path name : string) (w : Loader.world)
  : Loader.world :=
  Loader.World (settings w) (Loader.dotenv w) (Loader.files w)
    (created name (Loader.tables w)) (Loader.stdout w) (Loader.stderr w)
    (Loader.trace w ++ [Loader.ReadCsv csv_path; Loader.Connect;
                        Loader.CreateTableIfNotExists name; Loader.Commit]).

(** The frame [main] is about to insert: the file read and its dates
    converted. *)
Definition load_frame `{Loader.Libraries} (csv_path : string)
    (w : Loader.world) : result dataframe :=
  match Loader.files w !! csv_path with
  | None => Raise (FileNotFoundError csv_path)
  | Some text =>
      match Loader.pd_read_csv text with
      | Ok df => Loader.normalize_dates df
      | Raise e => Raise e
      end
  end.

(** The summary [main] prints. *)
Definition summary (count : nat) (table : option string) : string :=
  "✅ Loaded " +:+ Loader.with_commas count +:+ " rows into `"
  +:+ Loader.fmt table +:+ "`.".

(** The error of a text that does not read as a date. *)
Definition date_error (s : string) : exn :=
  ValueError ("time data '" +:+ s +:+ "' does not match format '%d-%b-%Y'").

(** ** More worlds and frames of the examples *)

(** A world with the four required settings, the table name given or
    not, one file and the tables given. *)
Definition loader_world (table : option string) (csv : string)
    (tbls : gmap string Loader.table) : Loader.world :=
  Loader.World ∅
    (let env : gmap string string :=
       {[ "DB_HOST" := "cvmdb.westernu.edu"; "DB_USER" := "your_user";
          "DB_PASS" := "your_password"; "DB_NAME" := "cvm_prod" ]} in
     match table with
     | Some name => <["DB_TABLE" := name]> env
     | None => env
     end)
    {[ "vea_2025_results.csv" := csv ]} tbls [] [] [].

(** Three files: two rows; the same id twice; a date that is no day
    of the calendar. *)
Definition two_rows_csv : string :=
  "icva_id,full_name,test_date,vea_score
ICVA0002,Bob Stone,16-MAY-2025,431
ICVA0001,Jane Q Public,15-MAY-2025,450
".

Definition repeated_id_csv : string :=
  "icva_id,full_name,test_date,vea_score
ICVA0001,Bob Stone,16-MAY-2025,431
ICVA0001,Jane Q Public,15-MAY-2025,450
".

Definition bad_date_csv : string :=
  "icva_id,full_name,test_date,vea_score
ICVA0001,Jane Q Public,31-FEB-2025,450
".

(** A world with the four required settings and an empty table name. *)
Definition empty_table_world : Loader.world :=
  Loader.World {[ "DB_TABLE" := "" ]}
    {[ "DB_HOST" := "cvmdb.westernu.edu"; "DB_USER" := "your_user";
       "DB_PASS" := "your_password"; "DB_NAME" := "cvm_prod" ]}
    ∅ ∅ [] [] [].


(** * Texts *)

Lemma str_app_cons c s1 s2 : String c s1 +:+ s2 = String c (s1 +:+ s2).
Proof. reflexivity. Qed.

Lemma str_app_nil_l s : "" +:+ s = s.
Proof. reflexivity. Qed.

Lemma str_app_nil_r s : s +:+ "" = s.
Proof. induction s as [|c s IH]; [done|]. by rewrite str_app_cons, IH. Qed.

Lemma str_app_assoc s1 s2 s3 : (s1 +:+ s2) +:+ s3 = s1 +:+ (s2 +:+ s3).
Proof.
  induction s1 as [|c s1 IH]; [done|]. by rewrite !str_app_cons, IH.
Qed.

Lemma str_app_snoc s c s' : (s +:+ String c "") +:+ s' = s +:+ String c s'.
Proof. by rewrite str_app_assoc. Qed.

Lemma join_empty l : Py.join "" l = foldr String.app "" l.
Proof.
  unfold Py.join. induction l as [|s [|s' l] IH]; simpl.
  - done.
  - by rewrite str_app_nil_r.
  - simpl in IH. rewrite str_app_nil_l. by rewrite IH.
Qed.

Lemma join_cons sep s s' l :
  Py.join sep (s :: s' :: l) = s +:+ sep +:+ Py.join sep (s' :: l).
Proof. reflexivity. Qed.

(** * Properties of the extractor *)

Section DateIndex.

(** The scan for the date token returns the position of the first token
    that matches. *)
Lemma date_index_from_first i pre d post :
  Forall (fun t => date_match t = false) pre ->
  date_match d = true ->
  date_index_from i (pre ++ d :: post) = Some (i + length pre)%nat.
Proof.
  intros Hpre Hd. revert i.
  induction Hpre as [|t pre Ht _ IH]; intros i; simpl.
  - rewrite Hd. f_equal. lia.
  - rewrite Ht, IH. f_equal. lia.
Qed.

Lemma date_index_from_none i tokens :
  Forall (fun t => date_match t = false) tokens ->
  date_index_from i tokens = None.
Proof.
  intros H. revert i. induction H as [|t ts Ht _ IH]; intros i; simpl.
  - reflexivity.
  - rewrite Ht. apply IH.
Qed.

End DateIndex.

(** What [parse_data_line] does on a line whose tokens are [pre], then
    the first token [d] that matches, then [post]: the scan starts at
    the first token of the line, so [pre] may be empty, and then [d] is
    the id as well. *)
Lemma parse_data_line_tokens line pre d post :
  Py.split line = pre ++ d :: post ->
  Forall (fun t => date_match t = false) pre ->
  date_match d = true ->
  parse_data_line line =
    if decide (length post ≠ 7%nat)
    then Raise (ValueError (scores_error (length post) line))
    else build_row (default d (head pre)) (Py.join " " (tail pre)) d post.
Proof.
  intros Htok Hpre Hd. unfold parse_data_line. rewrite Htok.
  assert (Hi : find_date_index (pre ++ d :: post) = Some (length pre)).
  { apply (date_index_from_first 0 pre d post Hpre Hd). }
  assert (H0 : (pre ++ d :: post) !! 0%nat = Some (default d (head pre))).
  { by destruct pre. }
  assert (Hd' : (pre ++ d :: post) !! length pre = Some d).
  { rewrite lookup_app_r by lia. by rewrite Nat.sub_diag. }
  assert (Hs : drop (length pre + 1) (pre ++ d :: post) = post).
  { by rewrite drop_app_add. }
  assert (Hn : Py.slice (pre ++ d :: post) 1 (length pre) = tail pre).
  { unfold Py.slice. destruct pre as [|t pre]; simpl; [done|].
    rewrite Nat.sub_0_r. apply take_app_length. }
  rewrite H0, Hi, Hd', Hs, Hn. reflexivity.
Qed.

Lemma build_row_seven icva name date s0 s1 s2 s3 s4 s5 s6 :
  build_row icva name date [s0; s1; s2; s3; s4; s5; s6]
  = Ok (Row icva name date s0 s1 s2 s3 s4 s5 s6).
Proof. reflexivity. Qed.

Lemma build_row_length icva name date scores :
  length scores = 7%nat ->
  exists s0 s1 s2 s3 s4 s5 s6,
    scores = [s0; s1; s2; s3; s4; s5; s6]
    /\ build_row icva name date scores
       = Ok (Row icva name date s0 s1 s2 s3 s4 s5 s6).
Proof.
  intros Hlen.
  destruct scores as [|s0 [|s1 [|s2 [|s3 [|s4 [|s5 [|s6 [|]]]]]]]];
    simplify_eq/=.
  by exists s0, s1, s2, s3, s4, s5, s6.
Qed.

(** A line that has tokens, none of which matches. *)
Lemma parse_data_line_no_date line t ts :
  Py.split line = t :: ts ->
  Forall (fun t => date_match t = false) (t :: ts) ->
  parse_data_line line = Raise StopIteration.
Proof.
  intros Htok Hno. unfold parse_data_line. rewrite Htok. simpl.
  unfold find_date_index. by rewrite (date_index_from_none 0 _ Hno).
Qed.

(** ** Splitting on white space *)

Lemma split_go_cur_nonempty cur s :
  cur ≠ "" -> Py.split_go cur s ≠ [].
Proof.
  revert cur. induction s as [|c s IH]; intros cur Hcur; simpl.
  - by destruct (decide (cur = "")).
  - destruct (Py.isspace c).
    + by destruct (decide (cur = "")).
    + apply IH. by destruct cur.
Qed.

(** A line that starts with the marker of the data lines has a first
    token. *)
Lemma split_candidate line :
  Py.startswith "ICVA" line = true -> Py.split line ≠ [].
Proof.
  unfold Py.startswith, Py.split. intros Hp.
  destruct line as [|c line]; [done|]. cbn [String.prefix] in Hp.
  destruct (ascii_dec "I"%char c) as [<-|]; [|done]. simpl.
  by apply split_go_cur_nonempty.
Qed.

Lemma split_go_token cur t rest :
  no_space t = true ->
  Py.split_go cur (t +:+ rest) = Py.split_go (cur +:+ t) rest.
Proof.
  revert cur. induction t as [|c t IH]; intros cur Ht.
  - by rewrite str_app_nil_r.
  - simpl in Ht. apply andb_true_iff in Ht as [Hc Ht].
    apply negb_true_iff in Hc.
    rewrite str_app_cons. simpl. rewrite Hc, IH by done.
    by rewrite str_app_snoc.
Qed.

(** The tokens of a line made of tokens with one space between them are
    those tokens. *)
Lemma split_join tokens :
  Forall token tokens -> Py.split (Py.join " " tokens) = tokens.
Proof.
  unfold Py.split.
  induction 1 as [|t tokens [Hne Ht] Htokens IH]; [done|].
  destruct tokens as [|t' tokens].
  - change (Py.join " " [t]) with t.
    rewrite <- (str_app_nil_r t) at 1.
    rewrite split_go_token by done. simpl.
    by rewrite decide_False.
  - rewrite join_cons, split_go_token by done.
    rewrite str_app_cons, !str_app_nil_l. cbn [Py.split_go Py.isspace].
    rewrite decide_False by done. by rewrite IH.
Qed.

Example split_join_jane :
  Py.split (Py.join " " ["ICVA0001"; "Jane"; "Q"; "Public"; "15-MAY-2025"])
  = ["ICVA0001"; "Jane"; "Q"; "Public"; "15-MAY-2025"].
Proof.
  apply split_join. repeat constructor; done.
Qed.

(** ** The loop of [main] *)

Lemma fold_loop_body lines st :
  fold_left loop_body lines st
  = LoopState (parsed_rows st ++ omap row_of lines)
              (printed st ++ omap error_of lines).
Proof.
  revert st. induction lines as [|l lines IH]; intros st; simpl.
  - rewrite !app_nil_r. by destruct st.
  - rewrite IH. unfold loop_body, row_of, error_of.
    destruct (parse_data_line l); simpl; by rewrite <- ?app_assoc.
Qed.

Lemma parse_loop_spec lines :
  parse_loop lines = LoopState (omap row_of lines) (omap error_of lines).
Proof. unfold parse_loop. by rewrite fold_loop_body. Qed.

(** The file [main] writes holds the rows of the data lines that
    parse. *)
Lemma main_output_file pages :
  output_file (main pages)
  = csv_text (omap row_of (data_lines (Py.splitlines (full_text pages)))).
Proof. unfold main. simpl. by rewrite parse_loop_spec. Qed.

(** ** The claims on the extractor *)

(** C1: a line whose tokens are an id, name tokens, the first token
    that matches the date pattern and seven more tokens is parsed into
    the record of the id, the name tokens joined by single spaces, the
    date token and the seven tokens in order; so is the line of Jane Q
    Public. *)
Theorem C1_parse_data_line_record
    line id names date s0 s1 s2 s3 s4 s5 s6 :
  Py.split line = id :: names ++ date :: [s0; s1; s2; s3; s4; s5; s6] ->
  date_match id = false ->
  Forall (fun t => date_match t = false) names ->
  date_match date = true ->
  parse_data_line line
    = Ok (Row id (Py.join " " names) date s0 s1 s2 s3 s4 s5 s6)
  /\ parse_data_line
       "ICVA0001 Jane Q Public 15-MAY-2025 450 88 90 85 92 88 91"
     = Ok (Row "ICVA0001" "Jane Q Public" "15-MAY-2025"
               "450" "88" "90" "85" "92" "88" "91").
Proof.
  intros Htok Hid Hnames Hdate. split; [|by vm_compute].
  rewrite (parse_data_line_tokens line (id :: names) date
             [s0; s1; s2; s3; s4; s5; s6]); auto.
Qed.

Lemma C1_witness :
  parse_data_line "  ICVA0007   Ana  de la Cruz 02-JAN-2024 1 2 3 4 5 6 7 "
    = Ok (Row "ICVA0007" "Ana de la Cruz" "02-JAN-2024"
              "1" "2" "3" "4" "5" "6" "7")
  /\ parse_data_line
       "ICVA0001 Jane Q Public 15-MAY-2025 450 88 90 85 92 88 91"
     = Ok (Row "ICVA0001" "Jane Q Public" "15-MAY-2025"
               "450" "88" "90" "85" "92" "88" "91").
Proof.
  apply (C1_parse_data_line_record
           "  ICVA0007   Ana  de la Cruz 02-JAN-2024 1 2 3 4 5 6 7 "
           "ICVA0007" ["Ana"; "de"; "la"; "Cruz"] "02-JAN-2024"
           "1" "2" "3" "4" "5" "6" "7").
  - vm_compute. reflexivity.
  - vm_compute. reflexivity.
  - repeat constructor.
  - vm_compute. reflexivity.
Defined.

(** The seven score fields of a record, in order. *)
Lemma build_row_scores icva name date post r :
  build_row icva name date post = Ok r ->
  length post = 7%nat ->
  [scale_score r; total_percent_correct r; anatomy r; physiology r;
   pharmacology r; microbiology r; pathology r] = post.
Proof.
  intros Hb Hlen.
  destruct (build_row_length icva name date post Hlen)
    as (s0 & s1 & s2 & s3 & s4 & s5 & s6 & -> & Hr).
  rewrite Hr in Hb. by simplify_eq.
Qed.

(** C2: on a line that has a token matching the date pattern,
    [parse_data_line] raises exactly when the tokens after the first
    such token are not seven; it then raises the [ValueError] of the
    count, and with seven tokens it returns a record holding those
    seven: nothing is cut off or filled in. *)
Theorem C2_seven_trailing_tokens line pre d post :
  Py.split line = pre ++ d :: post ->
  Forall (fun t => date_match t = false) pre ->
  date_match d = true ->
  ((exists e, parse_data_line line = Raise e) <-> length post ≠ 7%nat)
  /\ (length post ≠ 7%nat ->
      parse_data_line line
        = Raise (ValueError (scores_error (length post) line)))
  /\ (length post = 7%nat ->
      exists r, parse_data_line line = Ok r
        /\ [scale_score r; total_percent_correct r; anatomy r;
            physiology r; pharmacology r; microbiology r; pathology r]
           = post).
Proof.
  intros Htok Hpre Hd.
  rewrite (parse_data_line_tokens line pre d post Htok Hpre Hd).
  destruct (decide (length post ≠ 7%nat)) as [Hne|Heq].
  - split; [|split]; [split| |]; eauto. done.
  - apply dec_stable in Heq.
    destruct (build_row_length (default d (head pre))
                (Py.join " " (tail pre)) d post Heq)
      as (s0 & s1 & s2 & s3 & s4 & s5 & s6 & -> & Hr).
    rewrite Hr. split; [|split].
    + split; [intros [e He]; done | done].
    + done.
    + intros _. eexists. split; [reflexivity|reflexivity].
Qed.

Lemma C2_witness :
  ((exists e, parse_data_line "ICVA0002 Bob 15-MAY-2025 450 88 90 85 92 88"
              = Raise e)
   <-> length ["450"; "88"; "90"; "85"; "92"; "88"] ≠ 7%nat)
  /\ parse_data_line "ICVA0002 Bob 15-MAY-2025 450 88 90 85 92 88"
     = Raise (ValueError
         "Expected 7 scores, got 6 in line: ICVA0002 Bob 15-MAY-2025 450 88 90 85 92 88").
Proof.
  destruct (C2_seven_trailing_tokens
              "ICVA0002 Bob 15-MAY-2025 450 88 90 85 92 88"
              ["ICVA0002"; "Bob"] "15-MAY-2025"
              ["450"; "88"; "90"; "85"; "92"; "88"])
    as (Hiff & Hraise & _).
  - vm_compute. reflexivity.
  - repeat constructor.
  - vm_compute. reflexivity.
  - split; [exact Hiff|]. apply Hraise. simpl. lia.
Defined.

Example eight_trailing_tokens_rejected :
  parse_data_line "ICVA0002 Bob 15-MAY-2025 450 88 90 85 92 88 91 77"
  = Raise (ValueError
      "Expected 7 scores, got 8 in line: ICVA0002 Bob 15-MAY-2025 450 88 90 85 92 88 91 77").
Proof. vm_compute. reflexivity. Qed.

(** C3: the rows the loop of [main] produces are exactly the records of
    the lines that parse, in order, and each line that fails leaves one
    printed text and nothing else; a line of the batch that fails the
    check of the seven trailing tokens raises the [ValueError] whose
    text holds the count found and the line, produces no row, and the
    lines before and after it are treated as if it were not there; the
    file [main] writes holds the rows of the data lines that parse. *)
Theorem C3_bad_line_does_not_abort before line after pre d post :
  Py.split line = pre ++ d :: post ->
  Forall (fun t => date_match t = false) pre ->
  date_match d = true ->
  length post ≠ 7%nat ->
  let msg := "Expected 7 scores, got " +:+ pretty (length post)
             +:+ " in line: " +:+ line in
  parse_data_line line = Raise (ValueError msg)
  /\ (forall lines,
        parsed_rows (parse_loop lines) = omap row_of lines
        /\ printed (parse_loop lines) = omap error_of lines)
  /\ parsed_rows (parse_loop (before ++ line :: after))
     = parsed_rows (parse_loop before) ++ parsed_rows (parse_loop after)
  /\ printed (parse_loop (before ++ line :: after))
     = printed (parse_loop before)
       ++ ["Error parsing line: " +:+ line +:+ newline +:+ msg]
       ++ printed (parse_loop after)
  /\ (forall pages,
        output_file (main pages)
        = csv_text (omap row_of
                      (data_lines (Py.splitlines (full_text pages))))).
Proof.
  intros Htok Hpre Hd Hlen msg.
  assert (Hp : parse_data_line line = Raise (ValueError msg)).
  { rewrite (parse_data_line_tokens line pre d post Htok Hpre Hd).
    by destruct (decide (length post ≠ 7%nat)). }
  split; [exact Hp|]. split.
  { intros lines. by rewrite parse_loop_spec. }
  split; [|split; [|exact main_output_file]].
  - rewrite !parse_loop_spec. simpl. rewrite !omap_app. simpl.
    unfold row_of at 2. by rewrite Hp.
  - rewrite !parse_loop_spec. simpl. rewrite !omap_app. simpl.
    unfold error_of at 2. by rewrite Hp.
Qed.

Lemma C3_witness :
  parsed_rows (parse_loop
    ["ICVA0001 Jane Q Public 15-MAY-2025 450 88 90 85 92 88 91";
     "ICVA0002 Bob 15-MAY-2025 450 88 90 85 92 88";
     "ICVA0003 Eve 16-MAY-2025 1 2 3 4 5 6 7"])
  = parsed_rows (parse_loop
      ["ICVA0001 Jane Q Public 15-MAY-2025 450 88 90 85 92 88 91"])
    ++ parsed_rows (parse_loop ["ICVA0003 Eve 16-MAY-2025 1 2 3 4 5 6 7"]).
Proof.
  refine (proj1 (proj2 (proj2 (C3_bad_line_does_not_abort
    ["ICVA0001 Jane Q Public 15-MAY-2025 450 88 90 85 92 88 91"]
    "ICVA0002 Bob 15-MAY-2025 450 88 90 85 92 88"
    ["ICVA0003 Eve 16-MAY-2025 1 2 3 4 5 6 7"]
    ["ICVA0002"; "Bob"] "15-MAY-2025" ["450"; "88"; "90"; "85"; "92"; "88"]
    _ _ _ _)))).
  - vm_compute. reflexivity.
  - repeat constructor.
  - vm_compute. reflexivity.
  - simpl. lia.
Defined.

(** The first eleven characters decide the match. *)
Lemma date_match_substring t :
  date_match t = date_match (String.substring 0 11 t).
Proof.
  destruct t as [|c1 [|c2 [|c3 [|c4 [|c5 [|c6 [|c7 [|c8 [|c9 [|c10
    [|c11 t]]]]]]]]]]]; reflexivity.
Qed.

(** C9: a token matches the date pattern as soon as its first eleven
    characters do, whatever follows them, so [15-MAY-20256] is taken as
    the test date; and the scan starts at the first token of the line,
    so a line whose first token matches has that token both as its id
    and as its date, and an empty name. *)
Theorem C9_date_token_prefix_match t suffix line d post :
  date_match t = true ->
  Py.split line = d :: post ->
  date_match d = true ->
  date_match (t +:+ suffix) = true
  /\ date_match "15-MAY-20256" = true
  /\ parse_data_line
       "ICVA0001 Jane Q Public 15-MAY-20256 450 88 90 85 92 88 91"
     = Ok (Row "ICVA0001" "Jane Q Public" "15-MAY-20256"
               "450" "88" "90" "85" "92" "88" "91")
  /\ find_date_index (Py.split line) = Some 0%nat
  /\ parse_data_line line
     = (if decide (length post ≠ 7%nat)
        then Raise (ValueError (scores_error (length post) line))
        else build_row d "" d post)
  /\ parse_data_line "15-MAY-2025 450 88 90 85 92 88 91"
     = Ok (Row "15-MAY-2025" "" "15-MAY-2025"
               "450" "88" "90" "85" "92" "88" "91").
Proof.
  intros Ht Htok Hd.
  split; [|split; [by vm_compute|split; [by vm_compute|split; [|split]]]].
  - destruct t as [|c1 [|c2 [|c3 [|c4 [|c5 [|c6 [|c7 [|c8 [|c9 [|c10
      [|c11 t]]]]]]]]]]]; try discriminate Ht.
    exact Ht.
  - rewrite Htok. unfold find_date_index. simpl. by rewrite Hd.
  - by rewrite (parse_data_line_tokens line [] d post Htok (Forall_nil_2 _) Hd).
  - by vm_compute.
Qed.

Lemma C9_witness :
  date_match ("15-MAY-2025" +:+ "6") = true
  /\ find_date_index (Py.split "15-MAY-2025 450 88 90 85 92 88 91")
     = Some 0%nat.
Proof.
  destruct (C9_date_token_prefix_match "15-MAY-2025" "6"
              "15-MAY-2025 450 88 90 85 92 88 91" "15-MAY-2025"
              ["450"; "88"; "90"; "85"; "92"; "88"; "91"])
    as (H1 & _ & _ & H2 & _).
  - vm_compute. reflexivity.
  - vm_compute. reflexivity.
  - vm_compute. reflexivity.
  - split; [exact H1 | exact H2].
Defined.

(** C10: a candidate line none of whose tokens matches the date pattern
    makes [parse_data_line] raise [StopIteration], not the [ValueError]
    of the count; the loop catches it, prints the line with the empty
    text of that exception, appends no row, and goes on with the lines
    that follow. *)
Theorem C10_no_date_token_stop_iteration before line after :
  Py.startswith "ICVA" line = true ->
  Forall (fun t => date_match t = false) (Py.split line) ->
  parse_data_line line = Raise StopIteration
  /\ (forall msg, parse_data_line line ≠ Raise (ValueError msg))
  /\ parsed_rows (parse_loop (before ++ line :: after))
     = parsed_rows (parse_loop before) ++ parsed_rows (parse_loop after)
  /\ printed (parse_loop (before ++ line :: after))
     = printed (parse_loop before)
       ++ ["Error parsing line: " +:+ line +:+ newline]
       ++ printed (parse_loop after).
Proof.
  intros Hcand Hno.
  assert (Hp : parse_data_line line = Raise StopIteration).
  { pose proof (split_candidate line Hcand) as Hne.
    destruct (Py.split line) as [|t ts] eqn:Htok; [done|].
    by apply (parse_data_line_no_date line t ts). }
  split; [exact Hp|]. split; [intros msg; by rewrite Hp|].
  rewrite !parse_loop_spec. simpl.
  rewrite !omap_app. simpl. unfold row_of at 2, error_of at 2.
  rewrite Hp. simpl. by rewrite (str_app_nil_r newline).
Qed.

Lemma C10_witness :
  parse_data_line "ICVA0003 Bob 450 88 90 85 92 88 91" = Raise StopIteration
  /\ parsed_rows (parse_loop
       (["ICVA0001 Jane Q Public 15-MAY-2025 450 88 90 85 92 88 91"]
        ++ "ICVA0003 Bob 450 88 90 85 92 88 91"
        :: ["ICVA0003 Eve 16-MAY-2025 1 2 3 4 5 6 7"]))
     = parsed_rows (parse_loop
         ["ICVA0001 Jane Q Public 15-MAY-2025 450 88 90 85 92 88 91"])
       ++ parsed_rows (parse_loop ["ICVA0003 Eve 16-MAY-2025 1 2 3 4 5 6 7"]).
Proof.
  destruct (C10_no_date_token_stop_iteration
              ["ICVA0001 Jane Q Public 15-MAY-2025 450 88 90 85 92 88 91"]
              "ICVA0003 Bob 450 88 90 85 92 88 91"
              ["ICVA0003 Eve 16-MAY-2025 1 2 3 4 5 6 7"])
    as (H1 & _ & H2 & _).
  - vm_compute. reflexivity.
  - apply (bool_decide_unpack _). vm_compute. exact I.
  - split; [exact H1 | exact H2].
Defined.

(** * Properties of the loader *)

Lemma missing_of_config w :
  Loader.missing_of (config_of w) = missing_settings w.
Proof.
  unfold Loader.missing_of, missing_settings, config_of, required. simpl.
  destruct (Loader.unset (settings w !! "DB_HOST")),
    (Loader.unset (settings w !! "DB_USER")),
    (Loader.unset (settings w !! "DB_PASS")),
    (Loader.unset (settings w !! "DB_NAME")); simpl;
    by rewrite andb_false_r.
Qed.

Lemma load_env_spec w :
  Loader.load_env w =
    if decide (missing_settings w = [])
    then (Ok (config_of w), with_settings w)
    else (Raise (RuntimeError ("Missing required env vars: "
                               +:+ Py.join ", " (missing_settings w))),
          with_settings w).
Proof.
  unfold Loader.load_env, Loader.bind, Loader.load_dotenv, Loader.getenv.
  simpl. fold (settings w). fold (config_of w).
  rewrite missing_of_config. by case_decide.
Qed.

Lemma missing_settings_iff w key var :
  (key, var) ∈ required ->
  key ∈ missing_settings w <-> Loader.unset (settings w !! var) = true.
Proof.
  unfold missing_settings, required. intros Hin. simpl.
  repeat (apply elem_of_cons in Hin as [Heq|Hin]; [simplify_eq|]);
    [..|by apply elem_of_nil in Hin];
    destruct (Loader.unset (settings w !! "DB_HOST")),
      (Loader.unset (settings w !! "DB_USER")),
      (Loader.unset (settings w !! "DB_PASS")),
      (Loader.unset (settings w !! "DB_NAME")); simpl;
    rewrite ?elem_of_cons, ?elem_of_nil; intuition congruence.
Qed.

Lemma main_load_env_fails `{Loader.Libraries} csv_path w :
  missing_settings w ≠ [] ->
  Loader.main csv_path w
  = (Raise (RuntimeError ("Missing required env vars: "
                          +:+ Py.join ", " (missing_settings w))),
     with_settings w).
Proof.
  intros Hm. unfold Loader.main. unfold Loader.bind at 1.
  rewrite load_env_spec. by case_decide.
Qed.

(** C4 (the code departs from it): with the four required settings
    given and [DB_TABLE] left out, [load_env] returns a configuration
    whose table name is [None], not [vea_2025]; [main] then asks for a
    table named by the text of [None]. *)
Theorem C4_table_name_has_no_default :
  Loader.load_env docstring_world
  = (Ok [("host", Some "cvmdb.westernu.edu"); ("user", Some "your_user");
         ("password", Some "your_password"); ("database", Some "cvm_prod");
         ("table", None)],
     with_settings docstring_world)
  /\ Loader.cfg_get (config_of docstring_world) "table" = Ok None
  /\ Loader.cfg_get (config_of docstring_world) "table"
     ≠ Ok (Some "vea_2025")
  /\ Loader.create_table (Loader.fmt None) (with_settings docstring_world)
     = (Ok (),
        Loader.World (settings docstring_world)
          (Loader.dotenv docstring_world) ∅
          {[ "None" := Loader.Table (Some "icva_id") [] ]} [] []
          [Loader.Connect; Loader.CreateTableIfNotExists "None";
           Loader.Commit]).
Proof.
  split; [|split; [|split]].
  - rewrite load_env_spec. by vm_compute.
  - by vm_compute.
  - by vm_compute.
  - by vm_compute.
Qed.

(** C6: when a required setting is not set or is empty, [main] raises
    the [RuntimeError] whose text lists the keys of all such settings,
    and the world is left as it was but for the environment the
    settings file was loaded into: no event (no connection, no reading
    of the CSV, no statement) and no change of a table, a file or an
    output stream. *)
Theorem C6_missing_setting_aborts_before_io
    `{Loader.Libraries} csv_path w key var :
  (key, var) ∈ required ->
  Loader.unset (settings w !! var) = true ->
  exists w',
    Loader.main csv_path w
    = (Raise (RuntimeError ("Missing required env vars: "
                            +:+ Py.join ", " (missing_settings w))), w')
    /\ key ∈ missing_settings w
    /\ (forall key' var', (key', var') ∈ required ->
          key' ∈ missing_settings w
          <-> Loader.unset (settings w !! var') = true)
    /\ Loader.trace w' = Loader.trace w
    /\ Loader.tables w' = Loader.tables w
    /\ Loader.files w' = Loader.files w
    /\ Loader.stdout w' = Loader.stdout w
    /\ Loader.stderr w' = Loader.stderr w.
Proof.
  intros Hreq Hunset. exists (with_settings w).
  assert (Hin : key ∈ missing_settings w).
  { by apply (missing_settings_iff w key var). }
  split; [|split; [done|split; [|done]]].
  - apply main_load_env_fails. intros Hnil. rewrite Hnil in Hin.
    by apply elem_of_nil in Hin.
  - intros key' var' Hreq'. by apply missing_settings_iff.
Qed.

Lemma C6_witness :
  exists w',
    @Loader.main sample_libraries "vea_2025_results.csv" incomplete_world
    = (Raise (RuntimeError "Missing required env vars: user, password"), w')
    /\ Loader.trace w' = [] /\ Loader.tables w' = ∅.
Proof.
  destruct (@C6_missing_setting_aborts_before_io sample_libraries
              "vea_2025_results.csv" incomplete_world "password" "DB_PASS")
    as (w' & Hmain & _ & _ & Htrace & Htables & _).
  - vm_compute. repeat constructor.
  - vm_compute. reflexivity.
  - exists w'. split; [|split].
    + rewrite Hmain. vm_compute. reflexivity.
    + exact Htrace.
    + exact Htables.
Defined.

(** ** The script around [main] *)

(** When the file is there, the script ends with the exception [main]
    raised on the missing settings. *)
Lemma script_missing_setting `{Loader.Libraries} csv_arg w text :
  Loader.files w !! default "vea_2025_results.csv" csv_arg = Some text ->
  missing_settings w ≠ [] ->
  Loader.script csv_arg w
  = (Loader.Uncaught
       (RuntimeError ("Missing required env vars: "
                      +:+ Py.join ", " (missing_settings w))),
     with_settings w).
Proof.
  intros Hfile Hmiss. unfold Loader.script. rewrite Hfile.
  by rewrite main_load_env_fails.
Qed.

(** When the file is not there, the script says so on the error stream
    and exits with status 1 before the settings are looked at. *)
Lemma script_missing_csv `{Loader.Libraries} csv_arg w :
  Loader.files w !! default "vea_2025_results.csv" csv_arg = None ->
  exists w',
    Loader.script csv_arg w = (Loader.Exit 1, w')
    /\ Loader.environ w' = Loader.environ w
    /\ Loader.trace w' = Loader.trace w
    /\ Loader.stderr w'
       = Loader.stderr w
         ++ ["❌ CSV file '" +:+ default "vea_2025_results.csv" csv_arg
             +:+ "' not found."].
Proof.
  intros Hfile. unfold Loader.script. rewrite Hfile. by eexists.
Qed.

(** ** The date column *)

Section Normalize.

Context `{Loader.Libraries}.

Import Pandas.

Lemma column_index_lookup name cols i :
  column_index name cols = Some i -> cols !! i = Some name.
Proof.
  revert i. induction cols as [|c cols IH]; intros i; simpl; [done|].
  case_decide as Hc; [by intros [= <-]; subst|].
  destruct (column_index name cols) as [j|]; simpl; [|done].
  intros [= <-]. by apply IH.
Qed.

Lemma column_index_none name cols :
  column_index name cols = None <-> name ∉ cols.
Proof.
  induction cols as [|c cols IH]; simpl.
  - split; [intros _; apply not_elem_of_nil | done].
  - rewrite not_elem_of_cons. case_decide as Hc.
    + split; [done | intros [Hne _]; by subst].
    + destruct (column_index name cols); simpl.
      * split; [done | intros [_ Hn]; by apply IH in Hn].
      * split; [intros _; split; [done | by apply IH] | done].
Qed.

Lemma column_index_ne name name' cols i j :
  column_index name cols = Some i ->
  column_index name' cols = Some j ->
  name ≠ name' -> i ≠ j.
Proof.
  intros Hi Hj Hne ->.
  apply column_index_lookup in Hi, Hj. congruence.
Qed.

(** What a successful conversion of column [i] does to each row. *)
Lemma convert_column_ok i rs rs' :
  Loader.convert_column i rs = Ok rs' ->
  length rs' = length rs
  /\ forall k r, rs !! k = Some r ->
       exists c c', r !! i = Some c /\ Loader.to_date c = Ok c'
                    /\ rs' !! k = Some (<[i := c']> r).
Proof.
  revert rs'. induction rs as [|r rs IH]; intros rs'; simpl.
  - intros [= <-]. split; [done | intros k r Hk; by destruct k].
  - destruct (r !! i) as [c|] eqn:Hc; [|done].
    destruct (Loader.to_date c) as [c'|] eqn:Hconv; [|done].
    destruct (Loader.convert_column i rs) as [rs''|] eqn:Hrest; [|done].
    intros [= <-]. destruct (IH rs'' eq_refl) as [Hlen Hrows].
    split; [simpl; by rewrite Hlen|].
    intros [|k] r0 Hk; simpl in *.
    + simplify_eq. by exists c, c'.
    + by apply Hrows.
Qed.

(** The conversion succeeds when every row has a value in column [i]
    that reads as a date. *)
Lemma convert_column_total i rs :
  (forall r, r ∈ rs -> exists c c', r !! i = Some c
                                    /\ Loader.to_date c = Ok c') ->
  exists rs', Loader.convert_column i rs = Ok rs'.
Proof.
  induction rs as [|r rs IH]; intros Hall; simpl; [by eexists|].
  destruct (Hall r) as (c & c' & -> & ->); [by left|].
  destruct IH as [rs' ->]; [intros r0 Hr0; apply Hall; by right|].
  by eexists.
Qed.

Lemma at_unfold df name k i r :
  column_index name (columns df) = Some i ->
  data df !! k = Some r ->
  at_ df name k = r !! i.
Proof. intros Hi Hk. unfold at_. by rewrite Hi, Hk. Qed.

End Normalize.

(** C8: without a column named [test_date], the date step returns the
    frame as it is; with one, a step that succeeds keeps the names of
    the columns and the number of rows, leaves every value of every
    other column as it was, and puts in each row of [test_date] the
    date its value reads as (a text read under the format becomes that
    day); and the step does succeed when every value of the column
    reads as a date. *)
Theorem C8_date_step_frame `{Loader.Libraries} (df : Pandas.dataframe) :
  ("test_date" ∉ Pandas.columns df -> Loader.normalize_dates df = Ok df)
  /\ ("test_date" ∈ Pandas.columns df ->
      forall df', Loader.normalize_dates df = Ok df' ->
        Pandas.columns df' = Pandas.columns df
        /\ length (Pandas.data df') = length (Pandas.data df)
        /\ (forall name k, name ≠ "test_date" ->
              Pandas.at_ df' name k = Pandas.at_ df name k)
        /\ (forall k c, Pandas.at_ df "test_date" k = Some c ->
              exists c', Loader.to_date c = Ok c'
                         /\ Pandas.at_ df' "test_date" k = Some c')
        /\ (forall k s, Pandas.at_ df "test_date" k = Some (Pandas.Str s) ->
              exists d, Loader.strptime_dby s = Some d
                /\ Pandas.at_ df' "test_date" k = Some (Pandas.Day d)))
  /\ ("test_date" ∈ Pandas.columns df ->
      (forall r, r ∈ Pandas.data df ->
         length r = length (Pandas.columns df)) ->
      (forall k c, Pandas.at_ df "test_date" k = Some c ->
         exists c', Loader.to_date c = Ok c') ->
      exists df', Loader.normalize_dates df = Ok df').
Proof.
  unfold Loader.normalize_dates.
  destruct (Pandas.column_index "test_date" (Pandas.columns df))
    as [i|] eqn:Hi.
  2: { apply column_index_none in Hi. split; [done|]. split; done. }
  assert (Hin : "test_date" ∈ Pandas.columns df).
  { apply dec_stable. intros Hn. apply column_index_none in Hn. congruence. }
  split; [done|]. split.
  - intros _ df' Hconv.
    destruct (Loader.convert_column i (Pandas.data df)) as [rs|] eqn:Hrs;
      [|done].
    injection Hconv as <-. simpl.
    destruct (convert_column_ok i _ _ Hrs) as [Hlen Hrows].
    assert (Hcell : forall k c, Pandas.at_ df "test_date" k = Some c ->
              exists c', Loader.to_date c = Ok c'
                /\ Pandas.at_ (Pandas.DataFrame (Pandas.columns df) rs)
                     "test_date" k = Some c').
    { intros k c Hat. unfold Pandas.at_ in *. simpl. rewrite Hi in *.
      simpl in *. destruct (Pandas.data df !! k) as [r|] eqn:Hk; [|done].
      simpl in Hat. destruct (Hrows k r Hk) as (c0 & c' & Hc0 & Hd & Hk').
      rewrite Hk'. simpl. exists c'. split; [congruence|].
      apply list_lookup_insert_eq. by eapply lookup_lt_Some. }
    split; [done|]. split; [done|]. split; [|split; [exact Hcell|]].
    + intros name k Hne. unfold Pandas.at_. simpl.
      destruct (Pandas.column_index name (Pandas.columns df)) as [j|] eqn:Hj;
        [|done].
      simpl. destruct (Pandas.data df !! k) as [r|] eqn:Hk.
      * destruct (Hrows k r Hk) as (c0 & c' & _ & _ & ->). simpl.
        apply list_lookup_insert_ne.
        by apply (column_index_ne "test_date" name (Pandas.columns df)).
      * apply lookup_ge_None in Hk. rewrite <- Hlen in Hk.
        apply lookup_ge_None in Hk. by rewrite Hk.
    + intros k s Hat. destruct (Hcell k _ Hat) as (c' & Hd & Hat').
      simpl in Hd. destruct (Loader.strptime_dby s) as [d|]; [|done].
      exists d. split; [done|]. congruence.
  - intros _ Hwide Hall.
    destruct (convert_column_total i (Pandas.data df)) as [rs ->];
      [|by eexists].
    intros r Hr. apply list_elem_of_lookup in Hr as [k Hk].
    assert (is_Some (r !! i)) as [c Hc].
    { apply lookup_lt_is_Some. rewrite (Hwide r).
      - apply column_index_lookup in Hi. by eapply lookup_lt_Some.
      - apply list_elem_of_lookup. by exists k. }
    destruct (Hall k c) as [c' Hc'].
    { by rewrite (at_unfold df "test_date" k i r). }
    by exists c, c'.
Qed.

Lemma C8_witness :
  @Loader.normalize_dates sample_libraries undated_frame = Ok undated_frame
  /\ exists df',
       @Loader.normalize_dates sample_libraries dated_frame = Ok df'
       /\ Pandas.at_ df' "icva_id" 0 = Some (Pandas.Str "ICVA0001").
Proof.
  destruct (@C8_date_step_frame sample_libraries undated_frame)
    as (Habsent & _ & _).
  destruct (@C8_date_step_frame sample_libraries dated_frame)
    as (_ & Hframe & Htotal).
  split.
  - apply Habsent. cbn. intros Hin.
    repeat (apply elem_of_cons in Hin as [Hin|Hin]; [discriminate Hin|]).
    by apply elem_of_nil in Hin.
  - assert (Hin : "test_date" ∈ Pandas.columns dated_frame).
    { cbn. rewrite !elem_of_cons. auto. }
    destruct (Htotal Hin) as [df' Hdf'].
    + intros r Hr. cbn in Hr.
      repeat (apply elem_of_cons in Hr as [->|Hr]; [reflexivity|]).
      by apply elem_of_nil in Hr.
    + intros [|[|k]] c; cbn; intros [= <-]; eexists; reflexivity.
    + exists df'. split; [exact Hdf'|].
      destruct (Hframe Hin df' Hdf') as (_ & _ & Hother & _).
      rewrite Hother; [reflexivity | discriminate].
Defined.

(** ** The insert statement *)

Lemma insert_row_ok pk held r held' :
  Loader.insert_row pk held r = Ok held' -> held' = held ++ [r].
Proof.
  unfold Loader.insert_row. intros Hins.
  destruct pk as [key|]; [|by simplify_eq].
  destruct (Loader.lookup_column key r) as [v|]; [|done].
  destruct (Loader.is_null v); [done|].
  case_bool_decide; [done | by simplify_eq].
Qed.

Lemma insert_row_error pk held r e :
  Loader.insert_row pk held r = Raise e -> exists msg, e = IntegrityError msg.
Proof.
  unfold Loader.insert_row. intros Hins.
  destruct pk as [key|]; [|done].
  destruct (Loader.lookup_column key r) as [v|]; [|simplify_eq; by eexists].
  destruct (Loader.is_null v); [simplify_eq; by eexists|].
  case_bool_decide; [simplify_eq; by eexists | done].
Qed.

(** A row whose key is the key of a row the table holds is refused. *)
Lemma insert_row_duplicate key held r r' v :
  r' ∈ held ->
  Loader.lookup_column key r = Some v ->
  Loader.lookup_column key r' = Some v ->
  exists msg, Loader.insert_row (Some key) held r = Raise (IntegrityError msg).
Proof.
  intros Hheld Hr Hr'. unfold Loader.insert_row. rewrite Hr.
  destruct (Loader.is_null v); [by eexists|].
  rewrite bool_decide_eq_true_2; [by eexists|].
  apply list_elem_of_fmap. exists r'. by rewrite Hr'.
Qed.

(** The statement fails as a whole when one of its rows has the key of
    a row of the table. *)
Lemma insert_rows_duplicate key held new r r' v :
  r ∈ new -> r' ∈ held ->
  Loader.lookup_column key r = Some v ->
  Loader.lookup_column key r' = Some v ->
  exists msg,
    Loader.insert_rows (Some key) held new = Raise (IntegrityError msg).
Proof.
  intros Hnew Hheld Hr Hr'. revert held Hheld.
  induction new as [|r0 new IH]; intros held Hheld;
    cbn [Loader.insert_rows].
  - by apply elem_of_nil in Hnew.
  - destruct (Loader.insert_row (Some key) held r0) as [held'|e] eqn:Hins.
    + apply elem_of_cons in Hnew as [->|Hnew].
      * destruct (insert_row_duplicate key held r0 r' v Hheld Hr Hr')
          as [msg Hmsg].
        congruence.
      * apply insert_row_ok in Hins as ->.
        apply IH; [done|]. apply elem_of_app. by left.
    + apply insert_row_error in Hins as [msg ->]. by eexists.
Qed.

(** ** [main] up to the insert *)

Lemma cfg_get_config_of w :
  Loader.cfg_get (config_of w) "user" = Ok (settings w !! "DB_USER")
  /\ Loader.cfg_get (config_of w) "password" = Ok (settings w !! "DB_PASS")
  /\ Loader.cfg_get (config_of w) "host" = Ok (settings w !! "DB_HOST")
  /\ Loader.cfg_get (config_of w) "database" = Ok (settings w !! "DB_NAME")
  /\ Loader.cfg_get (config_of w) "table" = Ok (settings w !! "DB_TABLE").
Proof. repeat split; reflexivity. Qed.

Lemma main_reaches_insert `{Loader.Libraries} csv_path w name text df df' t :
  missing_settings w = [] ->
  settings w !! "DB_TABLE" = Some name ->
  Loader.create_engine (engine_url w) = Ok () ->
  Loader.files w !! csv_path = Some text ->
  Loader.pd_read_csv text = Ok df ->
  Loader.normalize_dates df = Ok df' ->
  Loader.tables w !! name = Some t ->
  Loader.main csv_path w
  = Loader.bind (Loader.to_sql name df')
      (fun _ => Loader.print
         ("✅ Loaded " +:+ Loader.with_commas (length (Pandas.data df'))
          +:+ " rows into `" +:+ name +:+ "`."))
      (before_insert csv_path name w).
Proof.
  intros Hmiss Htable Hengine Hfile Hread Hnorm Htbl.
  unfold Loader.main. unfold Loader.bind at 1. rewrite load_env_spec.
  rewrite decide_True by done.
  destruct (cfg_get_config_of w) as (Hu & Hp & Hh & Hd & Ht).
  unfold Loader.bind, Loader.lift.
  rewrite Hu, Hp, Hh, Hd. fold (engine_url w). rewrite Hengine.
  unfold Loader.read_file. simpl. rewrite Hfile.
  unfold Loader.bind, Loader.emit, Loader.lift. simpl.
  rewrite Hread, Hnorm, Htable. simpl.
  unfold Loader.create_table, Loader.bind, Loader.emit, Loader.get_tables.
  simpl. rewrite Htbl. simpl. unfold before_insert.
  rewrite <- !app_assoc. reflexivity.
Qed.

(** C5: when the frame read from the file has a row whose key value is
    the key value of a row of the destination table, [main] ends with
    the [IntegrityError] of the insert statement: the statement is
    rolled back, the tables are what they were (no row of the table is
    replaced and no row of the file is added), and the summary line is
    not printed.  All the rows of the frame are handed to the one
    statement: none is set aside beforehand. *)
Theorem C5_duplicate_key_aborts_batch
    `{Loader.Libraries} csv_path w name text df df' t key r r' v :
  missing_settings w = [] ->
  settings w !! "DB_TABLE" = Some name ->
  Loader.create_engine (engine_url w) = Ok () ->
  Loader.files w !! csv_path = Some text ->
  Loader.pd_read_csv text = Ok df ->
  Loader.normalize_dates df = Ok df' ->
  Loader.tables w !! name = Some t ->
  Loader.primary_key t = Some key ->
  r ∈ Loader.to_rows df' ->
  r' ∈ Loader.rows t ->
  Loader.lookup_column key r = Some v ->
  Loader.lookup_column key r' = Some v ->
  exists msg w',
    Loader.main csv_path w = (Raise (IntegrityError msg), w')
    /\ Loader.tables w' = Loader.tables w
    /\ Loader.stdout w' = Loader.stdout w
    /\ Loader.trace w'
       = Loader.trace w
         ++ [Loader.ReadCsv csv_path; Loader.Connect;
             Loader.CreateTableIfNotExists name; Loader.Commit;
             Loader.Connect;
             Loader.Insert name (length (Loader.to_rows df'));
             Loader.Rollback].
Proof.
  intros Hmiss Htable Hengine Hfile Hread Hnorm Htbl Hpk Hr Hr' Hv Hv'.
  rewrite (main_reaches_insert csv_path w name text df df' t) by done.
  destruct (insert_rows_duplicate key (Loader.rows t) (Loader.to_rows df')
              r r' v Hr Hr' Hv Hv') as [msg Hmsg].
  exists msg. eexists.
  unfold Loader.to_sql, Loader.bind, Loader.emit, Loader.get_tables,
    Loader.ret, Loader.raise, before_insert. simpl.
  rewrite Htbl. simpl. rewrite Hpk, Hmsg. simpl.
  split; [reflexivity|]. simpl. split; [done|]. split; [done|].
  rewrite <- !app_assoc. simpl. unfold Loader.to_rows.
  by rewrite length_fmap.
Qed.

Lemma C5_witness :
  exists msg w',
    @Loader.main sample_libraries "vea_2025_results.csv" rerun_world
    = (Raise (IntegrityError msg), w')
    /\ Loader.tables w' = Loader.tables rerun_world
    /\ Loader.stdout w' = [].
Proof.
  edestruct (@C5_duplicate_key_aborts_batch sample_libraries
               "vea_2025_results.csv" rerun_world "vea_2025")
    as (msg & w' & Hmain & Htables & Hout & _).
  - vm_compute. reflexivity.
  - vm_compute. reflexivity.
  - reflexivity.
  - vm_compute. reflexivity.
  - vm_compute. reflexivity.
  - vm_compute. reflexivity.
  - vm_compute. reflexivity.
  - reflexivity.
  - cbn. apply elem_of_cons. right. apply elem_of_cons. by left.
  - cbn. apply elem_of_cons. by left.
  - vm_compute. reflexivity.
  - vm_compute. reflexivity.
  - exists msg, w'. split; [exact Hmain|]. split; [exact Htables|exact Hout].
Defined.

(** * The round trip through the delimited file *)

(** ** The tokenizer on what the writer wrote *)

Lemma run_app p s1 s2 : run p (s1 +:+ s2) = run (run p s1) s2.
Proof.
  revert p. induction s1 as [|c s1 IH]; intros p; [done|].
  rewrite str_app_cons. simpl. apply IH.
Qed.

Lemma bare_tests c :
  bare c ->
  IS_TERMINATOR c = false /\ IS_CARRIAGE c = false
  /\ IS_QUOTE c = false /\ IS_DELIMITER c = false.
Proof.
  unfold bare, csv_special, IS_TERMINATOR, IS_CARRIAGE, IS_QUOTE,
    IS_DELIMITER.
  intros Hb. repeat (apply orb_false_elim in Hb as [Hb ?]). auto.
Qed.

Lemma needs_quote_cons c f :
  needs_quote (String c f) = false -> bare c /\ needs_quote f = false.
Proof. simpl. intros Hq. by apply orb_false_elim in Hq. Qed.

(** Bare characters are pushed one by one. *)
Lemma run_bare st b fs ls f :
  reading st -> needs_quote f = false ->
  exists st', reading st' /\ (st = IN_FIELD -> st' = IN_FIELD)
    /\ run (Parser st b fs ls) f = Parser st' (b +:+ f) fs ls.
Proof.
  revert st b. induction f as [|c f IH]; intros st b Hst Hq.
  - exists st. by rewrite str_app_nil_r.
  - apply needs_quote_cons in Hq as [Hc Hq].
    destruct (bare_tests c Hc) as (Ht & Hcr & Hqu & Hde).
    assert (Hstep : exists st', reading st'
              /\ (st = IN_FIELD -> st' = IN_FIELD)
              /\ step (Parser st b fs ls) c
                 = Parser st' (b +:+ String c "") fs ls).
    { destruct Hst as [-> | ->]; unfold step; simpl.
      - unfold step_IN_FIELD. rewrite Ht, Hcr, Hde.
        exists IN_FIELD. split; [by left | done].
      - rewrite Ht, Hcr. destruct (IS_WHITESPACE c).
        + exists WHITESPACE_LINE. split; [by right | done].
        + unfold step_IN_FIELD. rewrite Ht, Hcr, Hde.
          exists IN_FIELD. split; [by left | done]. }
    destruct Hstep as (st1 & Hst1 & Hin1 & Hstep). simpl. rewrite Hstep.
    destruct (IH st1 (b +:+ String c "") Hst1 Hq)
      as (st2 & Hst2 & Hin2 & ->).
    exists st2. split; [done|]. split; [auto|]. by rewrite str_app_snoc.
Qed.

(** Inside quotes every character of the field is pushed, a doubled
    quote as one quote. *)
Lemma run_quoted b fs ls f :
  run (Parser IN_QUOTED_FIELD b fs ls) (double_quotes f)
  = Parser IN_QUOTED_FIELD (b +:+ f) fs ls.
Proof.
  revert b. induction f as [|c f IH]; intros b; simpl.
  - by rewrite str_app_nil_r.
  - case_bool_decide as Hc.
    + subst c. simpl. unfold step at 2. simpl. unfold step at 1. simpl.
      unfold PUSH_CHAR. simpl. rewrite IH. by rewrite str_app_snoc.
    + simpl. unfold step at 1. simpl. unfold IS_QUOTE.
      rewrite bool_decide_eq_false_2 by done.
      unfold PUSH_CHAR. simpl. rewrite IH. by rewrite str_app_snoc.
Qed.

Lemma run_cons p c s : run p (String c s) = run (step p c) s.
Proof. reflexivity. Qed.

Lemma pending_delimiter st f fs ls :
  pending st f ->
  step (Parser st f fs ls) ","%char = Parser START_FIELD "" (fs ++ [f]) ls.
Proof. intros [-> | [-> | [-> | [[-> | ->] ->]]]]; reflexivity. Qed.

(** From the states a field after the first one is left in, the end of
    the line ends the field and the line. *)
Lemma pending_line_end st f fs ls :
  st = IN_FIELD \/ st = QUOTE_IN_QUOTED_FIELD
    \/ (st = START_FIELD /\ f = "") ->
  run (Parser st f fs ls) (String CR newline)
  = Parser START_RECORD "" [] (ls ++ [fs ++ [f]]).
Proof. intros [-> | [-> | [-> ->]]]; reflexivity. Qed.

(** A written field read from the start of a record or of a field. *)
Lemma run_field st0 fs ls f :
  st0 = START_FIELD \/ st0 = START_RECORD ->
  exists st, pending st f
    /\ (st0 = START_FIELD -> st ≠ WHITESPACE_LINE /\ st ≠ START_RECORD)
    /\ run (Parser st0 "" fs ls) (write_field f) = Parser st f fs ls.
Proof.
  intros Hst0. unfold write_field. destruct (needs_quote f) eqn:Hq.
  - exists QUOTE_IN_QUOTED_FIELD. split; [right; by left|]. split; [done|].
    rewrite run_cons.
    assert (step (Parser st0 "" fs ls) DQUOTE
            = Parser IN_QUOTED_FIELD "" fs ls) as ->.
    { by destruct Hst0 as [-> | ->]. }
    rewrite run_app, run_quoted. reflexivity.
  - destruct f as [|c f].
    + exists st0. split; [|split].
      * do 3 right. by split.
      * intros ->. done.
      * done.
    + apply needs_quote_cons in Hq as [Hc Hq].
      destruct (bare_tests c Hc) as (Ht & Hcr & Hqu & Hde).
      rewrite run_cons.
      assert (Hstep : exists st1, reading st1
                /\ (st0 = START_FIELD -> st1 = IN_FIELD)
                /\ step (Parser st0 "" fs ls) c
                   = Parser st1 (String c "") fs ls).
      { destruct Hst0 as [-> | ->]; unfold step; simpl.
        - unfold step_START_FIELD. rewrite Ht, Hcr, Hqu, Hde.
          exists IN_FIELD. split; [by left | done].
        - unfold step_START_RECORD. rewrite Ht, Hcr.
          destruct (IS_WHITESPACE c).
          + exists WHITESPACE_LINE. split; [by right | done].
          + unfold step_START_FIELD. rewrite Ht, Hcr, Hqu, Hde.
            exists IN_FIELD. split; [by left | done]. }
      destruct Hstep as (st1 & Hst1 & Hin1 & ->).
      destruct (run_bare st1 (String c "") fs ls f Hst1 Hq)
        as (st2 & Hst2 & Hin2 & ->).
      exists st2. split; [|split; [|done]].
      * destruct Hst2 as [-> | ->]; [by left | right; right; by left].
      * intros Hs. rewrite (Hin2 (Hin1 Hs)). done.
Qed.

Lemma writerow_two f1 f2 fs :
  writerow (f1 :: f2 :: fs)
  = Py.join "," (write_field <$> (f1 :: f2 :: fs)) +:+ String CR newline.
Proof. by destruct f1. Qed.

(** The fields after the first one, up to the end of the line. *)
Lemma run_rest fs ls g gs :
  run (Parser START_FIELD "" fs ls)
      (Py.join "," (write_field <$> (g :: gs)) +:+ String CR newline)
  = Parser START_RECORD "" [] (ls ++ [fs ++ g :: gs]).
Proof.
  revert g fs. induction gs as [|g' gs IH]; intros g fs.
  - change (Py.join "," (write_field <$> [g])) with (write_field g).
    rewrite run_app.
    destruct (run_field START_FIELD fs ls g) as (st & Hp & Hst & ->);
      [by left|].
    destruct (Hst eq_refl) as [Hws Hsr].
    apply pending_line_end.
    destruct Hp as [-> | [-> | [-> | [[-> | ->] ->]]]]; auto; done.
  - rewrite fmap_cons, fmap_cons, join_cons, <- fmap_cons.
    rewrite !str_app_assoc, run_app.
    destruct (run_field START_FIELD fs ls g) as (st & Hp & _ & ->);
      [by left|].
    rewrite str_app_cons, str_app_nil_l, run_cons.
    rewrite (pending_delimiter st g fs ls Hp).
    rewrite IH. by rewrite <- app_assoc.
Qed.

(** A written row of two fields or more is read back as it was. *)
Lemma run_row ls f1 f2 fs :
  run (Parser START_RECORD "" [] ls) (writerow (f1 :: f2 :: fs))
  = Parser START_RECORD "" [] (ls ++ [f1 :: f2 :: fs]).
Proof.
  rewrite writerow_two.
  rewrite fmap_cons, fmap_cons, join_cons, <- fmap_cons.
  rewrite !str_app_assoc, run_app.
  destruct (run_field START_RECORD [] ls f1) as (st & Hp & _ & ->);
    [by right|].
  rewrite str_app_cons, str_app_nil_l, run_cons.
  rewrite (pending_delimiter st f1 [] ls Hp).
  by rewrite run_rest.
Qed.

Lemma run_rows ls (rows : list (list string)) :
  Forall (fun r => 2 <= length r)%nat rows ->
  run (Parser START_RECORD "" [] ls) (foldr String.app "" (writerow <$> rows))
  = Parser START_RECORD "" [] (ls ++ rows).
Proof.
  intros Hrows. revert ls.
  induction Hrows as [|r rows Hr _ IH]; intros ls; simpl.
  - by rewrite app_nil_r.
  - destruct r as [|f1 [|f2 fs]]; simpl in Hr; [lia..|].
    rewrite run_app, run_row, IH. by rewrite <- app_assoc.
Qed.

(** The text [main] writes is tokenized into the header and the values
    of the rows. *)
Lemma run_csv_text (rows : list row) :
  run (Parser START_RECORD "" [] []) (csv_text rows)
  = Parser START_RECORD "" [] (fieldnames :: (row_values <$> rows)).
Proof.
  unfold csv_text. rewrite join_empty, run_app.
  unfold fieldnames at 1. rewrite run_row. simpl app.
  rewrite run_rows; [done|].
  apply Forall_fmap, Forall_forall. intros r _. simpl. lia.
Qed.

(** ** From the tokens back to the values *)

Lemma pad_full w r : length r = w -> pad w r = r.
Proof.
  intros <-. unfold pad. rewrite Nat.sub_diag. simpl. apply app_nil_r.
Qed.

Lemma shape_rest_rect w rows :
  Forall (fun r => length r = w) rows -> shape_rest w rows = Ok rows.
Proof.
  induction 1 as [|r rows Hr _ IH]; simpl; [done|].
  rewrite decide_False by lia. by rewrite IH, pad_full.
Qed.

Lemma shape_rect k rows :
  Forall (fun r => length r = k) rows -> shape k rows = Ok (k, rows).
Proof.
  intros Hrows. unfold shape. destruct Hrows as [|r rows Hr Hrows]; [done|].
  rewrite Hr, Nat.max_id. by rewrite shape_rest_rect, pad_full.
Qed.





(** A name that holds a NUL character comes back cut at it. *)
Example nul_cuts_the_name :
  read_csv (csv_text
    [Row "ICVA0001" (String "A" (String NUL "B")) "15-MAY-2025"
         "450" "88" "90" "85" "92" "88" "91"])
  = Some (Ok (DataFrame fieldnames
       [[Str "ICVA0001"; Str "A"; Str "15-MAY-2025";
         Str "450"; Str "88"; Str "90"; Str "85"; Str "92"; Str "88";
         Str "91"]])).
Proof. by vm_compute. Qed.

(** * Further properties of the extractor *)

(** ** The outcomes of [parse_data_line] *)

Lemma split_go_all_space cur s :
  all_space s = true ->
  Py.split_go cur s = if decide (cur = "") then [] else [cur].
Proof.
  revert cur. induction s as [|c s IH]; intros cur Hs; simpl; [done|].
  simpl in Hs. apply andb_true_iff in Hs as [Hc Hs]. rewrite Hc.
  rewrite (IH "" Hs). simpl. by rewrite app_nil_r.
Qed.

Lemma split_nil_all_space s : Py.split s = [] -> all_space s = true.
Proof.
  unfold Py.split. induction s as [|c s IH]; simpl; [done|].
  destruct (Py.isspace c) eqn:Hc; simpl.
  - exact IH.
  - intros Hnil. by apply split_go_cur_nonempty in Hnil.
Qed.

Lemma no_space_app s1 s2 :
  no_space (s1 +:+ s2) = no_space s1 && no_space s2.
Proof.
  induction s1 as [|c s1 IH]; [done|].
  rewrite str_app_cons. simpl. by rewrite IH, andb_assoc.
Qed.

(** Every token of a line is a token: not empty, without white space. *)
Lemma split_go_tokens cur s :
  no_space cur = true -> Forall token (Py.split_go cur s).
Proof.
  revert cur. induction s as [|c s IH]; intros cur Hcur; simpl.
  - case_decide; [constructor|]. by repeat constructor.
  - destruct (Py.isspace c) eqn:Hc.
    + apply Forall_app. split; [|by apply IH].
      case_decide; [constructor|]. by repeat constructor.
    + apply IH. rewrite no_space_app, Hcur. simpl. by rewrite Hc.
Qed.

Lemma split_tokens s : Forall token (Py.split s).
Proof. by apply split_go_tokens. Qed.

(** The scan, read backwards: an index found is the position of the
    first token that matches. *)
Lemma date_index_from_some i tokens j :
  date_index_from i tokens = Some j ->
  exists pre d post,
    tokens = pre ++ d :: post
    /\ Forall (fun t => date_match t = false) pre
    /\ date_match d = true
    /\ j = (i + length pre)%nat.
Proof.
  revert i. induction tokens as [|t ts IH]; intros i; simpl; [done|].
  destruct (date_match t) eqn:Ht.
  - intros [= <-]. exists [], t, ts. repeat split; [constructor|done|].
    simpl. lia.
  - intros Hj. destruct (IH _ Hj) as (pre & d & post & -> & Hpre & Hd & ->).
    exists (t :: pre), d, post. repeat split; [by constructor|done|].
    simpl. lia.
Qed.

Lemma date_index_from_none_inv i tokens :
  date_index_from i tokens = None ->
  Forall (fun t => date_match t = false) tokens.
Proof.
  revert i. induction tokens as [|t ts IH]; intros i; simpl; [constructor|].
  destruct (date_match t) eqn:Ht; [done|].
  intros Hn. constructor; [done | by eapply IH].
Qed.

(** The three ways a line is read: no token; tokens none of which
    matches; tokens with a first match. *)
Lemma split_cases line :
  Py.split line = []
  \/ (Py.split line <> []
      /\ Forall (fun t => date_match t = false) (Py.split line))
  \/ exists pre d post,
       Py.split line = pre ++ d :: post
       /\ Forall (fun t => date_match t = false) pre
       /\ date_match d = true.
Proof.
  destruct (Py.split line) as [|t ts] eqn:Htok; [by left|]. right.
  destruct (find_date_index (t :: ts)) as [j|] eqn:Hj.
  - right. apply date_index_from_some in Hj
      as (pre & d & post & Heq & Hpre & Hd & _).
    by exists pre, d, post.
  - left. split; [done|]. by apply date_index_from_none_inv in Hj.
Qed.

Lemma parse_data_line_no_token line :
  Py.split line = [] ->
  parse_data_line line = Raise (IndexError "list index out of range").
Proof. intros Htok. unfold parse_data_line. by rewrite Htok. Qed.

(** X1: [parse_data_line] raises [IndexError] exactly on the lines that
    hold nothing but white space (the empty line among them): there
    [tokens[0]] does not exist. *)
Theorem X1_blank_line_index_error line :
  (exists msg, parse_data_line line = Raise (IndexError msg))
  <-> all_space line = true.
Proof.
  split.
  - intros [msg Hp].
    destruct (split_cases line)
      as [Hnil | [[Hne Hno] | (pre & d & post & Htok & Hpre & Hd)]].
    + by apply split_nil_all_space.
    + destruct (Py.split line) as [|t ts] eqn:Htok; [done|].
      by rewrite (parse_data_line_no_date line t ts) in Hp.
    + rewrite (parse_data_line_tokens line pre d post) in Hp by done.
      case_decide as Hlen; [done|].
      destruct (build_row_length (default d (head pre))
                  (Py.join " " (tail pre)) d post Hlen)
        as (s0 & s1 & s2 & s3 & s4 & s5 & s6 & _ & Hr).
      by rewrite Hr in Hp.
  - intros Hs. eexists. apply parse_data_line_no_token.
    unfold Py.split. by rewrite split_go_all_space.
Qed.

Lemma X1_witness :
  exists msg, parse_data_line "   " = Raise (IndexError msg).
Proof. apply (proj2 (X1_blank_line_index_error "   ")). reflexivity. Defined.

(** X2: a record comes only from a line of the expected shape.  When
    [parse_data_line] returns a record, the tokens of the line are some
    tokens without a match, then the date of the record, which matches,
    then exactly the seven scores of the record; the id is the first
    token of the line, the name joins the tokens between it and the
    date, and the id, the date and the scores are not empty and hold no
    white space. *)
Theorem X2_record_only_from_shape line r :
  parse_data_line line = Ok r ->
  exists pre,
    Py.split line
    = pre ++ test_date r
        :: [scale_score r; total_percent_correct r; anatomy r;
            physiology r; pharmacology r; microbiology r; pathology r]
    /\ Forall (fun t => date_match t = false) pre
    /\ date_match (test_date r) = true
    /\ icva_id r = default (test_date r) (head pre)
    /\ full_name r = Py.join " " (tail pre)
    /\ Forall token
         [icva_id r; test_date r; scale_score r; total_percent_correct r;
          anatomy r; physiology r; pharmacology r; microbiology r;
          pathology r].
Proof.
  intros Hp.
  destruct (split_cases line)
    as [Hnil | [[Hne Hno] | (pre & d & post & Htok & Hpre & Hd)]].
  - by rewrite (parse_data_line_no_token line Hnil) in Hp.
  - destruct (Py.split line) as [|t ts] eqn:Htok; [done|].
    by rewrite (parse_data_line_no_date line t ts) in Hp.
  - rewrite (parse_data_line_tokens line pre d post) in Hp by done.
    case_decide as Hlen; [done|].
    destruct (build_row_length (default d (head pre))
                (Py.join " " (tail pre)) d post Hlen)
      as (s0 & s1 & s2 & s3 & s4 & s5 & s6 & -> & Hr).
    rewrite Hr in Hp. injection Hp as <-. simpl.
    exists pre. split; [done|]. split; [done|]. split; [done|].
    split; [done|]. split; [done|].
    pose proof (split_tokens line) as Htokens. rewrite Htok in Htokens.
    apply Forall_app in Htokens as [Hpre_tok Hrest].
    constructor; [|exact Hrest].
    destruct pre as [|t pre]; simpl.
    + by apply Forall_cons in Hrest as [? _].
    + by apply Forall_cons in Hpre_tok as [? _].
Qed.

Lemma X2_witness :
  exists pre,
    Py.split "ICVA0001 Jane Q Public 15-MAY-2025 450 88 90 85 92 88 91"
    = pre ++ "15-MAY-2025" :: ["450"; "88"; "90"; "85"; "92"; "88"; "91"].
Proof.
  destruct (X2_record_only_from_shape
              "ICVA0001 Jane Q Public 15-MAY-2025 450 88 90 85 92 88 91"
              (Row "ICVA0001" "Jane Q Public" "15-MAY-2025"
                   "450" "88" "90" "85" "92" "88" "91"))
    as (pre & Htok & _).
  - vm_compute. reflexivity.
  - exists pre. exact Htok.
Defined.

(** X3: on a line that starts with the marker ICVA, [parse_data_line]
    ends in one of three ways and no other: a record; [StopIteration],
    when no token matches the date pattern; or the [ValueError] of a
    count that is not seven.  It never raises [IndexError] there. *)
Theorem X3_candidate_line_outcomes line :
  Py.startswith "ICVA" line = true ->
  (exists r, parse_data_line line = Ok r)
  \/ (parse_data_line line = Raise StopIteration
      /\ Forall (fun t => date_match t = false) (Py.split line))
  \/ (exists n, n <> 7%nat
        /\ parse_data_line line = Raise (ValueError (scores_error n line))).
Proof.
  intros Hcand. pose proof (split_candidate line Hcand) as Hne.
  destruct (split_cases line)
    as [Hnil | [[_ Hno] | (pre & d & post & Htok & Hpre & Hd)]].
  - done.
  - right. left. split; [|done].
    destruct (Py.split line) as [|t ts] eqn:Htok; [done|].
    by apply (parse_data_line_no_date line t ts).
  - rewrite (parse_data_line_tokens line pre d post) by done.
    case_decide as Hlen.
    + right. right. by exists (length post).
    + left.
      destruct (build_row_length (default d (head pre))
                  (Py.join " " (tail pre)) d post Hlen)
        as (s0 & s1 & s2 & s3 & s4 & s5 & s6 & _ & ->).
      by eexists.
Qed.

Lemma X3_witness :
  (exists r, parse_data_line "ICVA0003 Bob 450 88" = Ok r)
  \/ (parse_data_line "ICVA0003 Bob 450 88" = Raise StopIteration
      /\ Forall (fun t => date_match t = false)
           (Py.split "ICVA0003 Bob 450 88"))
  \/ (exists n, n <> 7%nat
        /\ parse_data_line "ICVA0003 Bob 450 88"
           = Raise (ValueError (scores_error n "ICVA0003 Bob 450 88"))).
Proof.
  apply (X3_candidate_line_outcomes "ICVA0003 Bob 450 88").
  vm_compute. reflexivity.
Defined.

(** X4: a line written by joining with single spaces an id, name
    tokens, a date token and seven score tokens (tokens: not empty, no
    white space; no match before the date token) is parsed back into
    exactly those. *)
Theorem X4_join_then_parse id names date s0 s1 s2 s3 s4 s5 s6 :
  Forall token (id :: names ++ date :: [s0; s1; s2; s3; s4; s5; s6]) ->
  date_match id = false ->
  Forall (fun t => date_match t = false) names ->
  date_match date = true ->
  parse_data_line
    (Py.join " " (id :: names ++ date :: [s0; s1; s2; s3; s4; s5; s6]))
  = Ok (Row id (Py.join " " names) date s0 s1 s2 s3 s4 s5 s6).
Proof.
  intros Htokens Hid Hnames Hdate.
  rewrite (parse_data_line_tokens _ (id :: names) date
             [s0; s1; s2; s3; s4; s5; s6]).
  - reflexivity.
  - by apply split_join.
  - by constructor.
  - done.
Qed.

Lemma X4_witness :
  parse_data_line
    (Py.join " " ("ICVA0001" :: ["Jane"; "Q"; "Public"] ++ "15-MAY-2025"
                  :: ["450"; "88"; "90"; "85"; "92"; "88"; "91"]))
  = Ok (Row "ICVA0001" (Py.join " " ["Jane"; "Q"; "Public"]) "15-MAY-2025"
            "450" "88" "90" "85" "92" "88" "91").
Proof.
  apply X4_join_then_parse.
  - repeat constructor; done.
  - reflexivity.
  - repeat constructor.
  - reflexivity.
Defined.

(** ** The marker of the data lines *)

Lemma prefix_app p rest : String.prefix p (p +:+ rest) = true.
Proof.
  induction p as [|c p IH].
  - rewrite str_app_nil_l. by destruct rest.
  - rewrite str_app_cons. cbn [String.prefix].
    destruct (ascii_dec c c); [exact IH | done].
Qed.

Lemma prefix_split p s :
  String.prefix p s = true -> exists rest, s = p +:+ rest.
Proof.
  revert s. induction p as [|c p IH]; intros s Hp.
  - by exists s.
  - destruct s as [|c' s]; [done|]. cbn [String.prefix] in Hp.
    destruct (ascii_dec c c') as [<-|]; [|done].
    destruct (IH s Hp) as [rest ->]. by exists rest.
Qed.

Lemma prefix_weaken a b t :
  String.prefix (a +:+ b) t = true -> String.prefix a t = true.
Proof.
  intros Hp. apply prefix_split in Hp as [rest ->].
  rewrite str_app_assoc. apply prefix_app.
Qed.

(** The first token of what remains starts with the run being read. *)
Lemma split_go_head cur s :
  cur <> "" ->
  exists t ts, Py.split_go cur s = t :: ts /\ String.prefix cur t = true.
Proof.
  revert cur. induction s as [|c s IH]; intros cur Hcur; simpl.
  - rewrite decide_False by done. exists cur, [].
    split; [done|]. rewrite <- (str_app_nil_r cur) at 2. apply prefix_app.
  - destruct (Py.isspace c).
    + rewrite decide_False by done. exists cur, (Py.split_go "" s).
      split; [done|]. rewrite <- (str_app_nil_r cur) at 2. apply prefix_app.
    + destruct (IH (cur +:+ String c "")) as (t & ts & -> & Hp).
      { by destruct cur. }
      exists t, ts. split; [done|]. by eapply prefix_weaken.
Qed.

(** The first token of a line that starts with a marker starts with
    it. *)
Lemma first_token_marker p line :
  p <> "" -> no_space p = true ->
  Py.startswith p line = true ->
  exists t ts, Py.split line = t :: ts /\ Py.startswith p t = true.
Proof.
  intros Hne Hp Hstart. apply prefix_split in Hstart as [rest ->].
  unfold Py.split. rewrite split_go_token by done. rewrite str_app_nil_l.
  by apply split_go_head.
Qed.

(** The id and the date of a record, read off the line it comes
    from. *)
Lemma parse_data_line_ok_head line r :
  parse_data_line line = Ok r ->
  exists t ts, Py.split line = t :: ts
    /\ icva_id r = t /\ date_match (test_date r) = true.
Proof.
  intros Hp.
  destruct (split_cases line)
    as [Hnil | [[Hne Hno] | (pre & d & post & Htok & Hpre & Hd)]].
  - by rewrite (parse_data_line_no_token line Hnil) in Hp.
  - destruct (Py.split line) as [|t ts] eqn:Htok; [done|].
    by rewrite (parse_data_line_no_date line t ts) in Hp.
  - rewrite (parse_data_line_tokens line pre d post) in Hp by done.
    case_decide as Hlen; [done|].
    destruct (build_row_length (default d (head pre))
                (Py.join " " (tail pre)) d post Hlen)
      as (s0 & s1 & s2 & s3 & s4 & s5 & s6 & -> & Hr).
    rewrite Hr in Hp. injection Hp as <-. simpl. rewrite Htok.
    destruct pre as [|t pre]; simpl; eauto.
Qed.

Lemma data_lines_candidate lines line :
  line ∈ data_lines lines -> Py.startswith "ICVA" line = true.
Proof.
  unfold data_lines. intros Hin.
  apply list_elem_of_fmap in Hin as (l & -> & Hl).
  by apply list_elem_of_filter in Hl as [Hl _].
Qed.

(** X5: every row [main] writes to the output file has an id that
    starts with ICVA and holds no white space, and a test date that
    matches the date pattern. *)
Theorem X5_written_rows_marked pages :
  exists rows,
    output_file (main pages) = csv_text rows
    /\ Forall (fun r => Py.startswith "ICVA" (icva_id r) = true
                       /\ token (icva_id r)
                       /\ date_match (test_date r) = true) rows.
Proof.
  exists (omap row_of (data_lines (Py.splitlines (full_text pages)))).
  split; [apply main_output_file|].
  apply Forall_forall. intros r Hr.
  apply list_elem_of_omap in Hr as (line & Hline & Hrow).
  apply data_lines_candidate in Hline.
  unfold row_of in Hrow.
  destruct (parse_data_line line) as [r'|] eqn:Hp; [|done].
  injection Hrow as ->.
  destruct (parse_data_line_ok_head line r Hp) as (t & ts & Htok & -> & Hd).
  destruct (first_token_marker "ICVA" line) as (t' & ts' & Htok' & Hstart);
    [done..|].
  rewrite Htok in Htok'. injection Htok' as <- <-.
  pose proof (split_tokens line) as Htokens. rewrite Htok in Htokens.
  apply Forall_cons in Htokens as [Ht _]. done.
Qed.

Lemma rows_and_errors lines :
  (length (omap row_of lines) + length (omap error_of lines))%nat
  = length lines.
Proof.
  induction lines as [|l lines IH]; [done|].
  change (l :: lines) with ([l] ++ lines).
  rewrite !omap_app, !length_app, <- IH. simpl.
  unfold row_of, error_of. destruct (parse_data_line l); simpl; lia.
Qed.

(** X6: what [main] prints: one text for each data line that fails, in
    order, then the report, then the line on the saved file.  Each data
    line gives either a row or a printed text, and the report is the
    success line exactly when the rows are 107; otherwise it is the
    warning with the number of rows, and the file is written all the
    same. *)
Theorem X6_printed_report pages :
  let lines := data_lines (Py.splitlines (full_text pages)) in
  let rows := omap row_of lines in
  let errors := omap error_of lines in
  exists report,
    stdout (main pages)
    = errors ++ [report; "Data saved to parsed_data.csv"]
    /\ (length rows + length errors)%nat = length lines
    /\ (length rows = 107%nat ->
        report = "Successfully parsed 107 students.")
    /\ (length rows <> 107%nat ->
        report = "Warning: Expected 107 students, but parsed "
                 +:+ pretty (length rows) +:+ ".")
    /\ output_file (main pages) = csv_text rows.
Proof.
  intros lines rows errors. unfold main. fold lines.
  rewrite parse_loop_spec. fold rows errors. cbn [parsed_rows printed].
  eexists. split; [reflexivity|]. split; [apply rows_and_errors|].
  split; [|split; [|done]].
  - intros Hn. rewrite decide_True by done. by rewrite Hn.
  - intros Hn. by rewrite decide_False.
Qed.

(** ** The pages of the document *)

Lemma splitlines_go_cons cur c s :
  Py.splitlines_go cur (String c s)
  = if Py.islinebreak c
    then cur :: Py.splitlines_go "" (after_boundary c s)
    else Py.splitlines_go (cur +:+ String c "") s.
Proof.
  destruct (decide (c = CR)) as [->|Hc].
  - destruct s as [|c' s]; [done|].
    destruct (decide (c' = LF)) as [->|Hc']; [done|].
    unfold after_boundary. rewrite (bool_decide_eq_false_2 (c' = LF)) by done.
    rewrite andb_false_r.
    destruct c' as [[] [] [] [] [] [] [] []]; done.
  - assert (after_boundary c s = s) as ->.
    { unfold after_boundary. destruct s; [done|].
      by rewrite (bool_decide_eq_false_2 (c = CR)). }
    destruct c as [[] [] [] [] [] [] [] []]; done.
Qed.

Lemma after_boundary_length c s :
  (String.length (after_boundary c s) <= String.length s)%nat.
Proof.
  unfold after_boundary. destruct s as [|c' s]; [done|].
  destruct (_ && _); simpl; lia.
Qed.

(** What follows the boundary in a text that a line feed and more
    text are added to. *)
Lemma after_boundary_page c a b :
  Py.islinebreak c = true ->
  (a = "" /\ after_boundary c (a +:+ newline +:+ b)
             = (if bool_decide (c = CR) then b else newline +:+ b)
          /\ after_boundary c (a +:+ newline)
             = (if bool_decide (c = CR) then "" else newline))
  \/ (a <> ""
      /\ after_boundary c (a +:+ newline +:+ b)
         = after_boundary c a +:+ newline +:+ b
      /\ after_boundary c (a +:+ newline)
         = after_boundary c a +:+ newline).
Proof.
  intros _. destruct a as [|c' a]; [left|right].
  - split; [done|]. unfold after_boundary, newline. rewrite !str_app_nil_l.
    rewrite !str_app_cons, !str_app_nil_l.
    rewrite (bool_decide_eq_true_2 (LF = LF)) by done.
    rewrite andb_true_r. by destruct (bool_decide (c = CR)).
  - split; [done|]. unfold after_boundary. rewrite !str_app_cons.
    by destruct (_ && _).
Qed.

(** A line feed ends a line whatever comes before it: the lines of a
    text, a line feed and more text are the lines of the text with the
    line feed, then the lines of the rest. *)
Lemma splitlines_go_page cur a b :
  Py.splitlines_go cur (a +:+ newline +:+ b)
  = Py.splitlines_go cur (a +:+ newline) ++ Py.splitlines_go "" b.
Proof.
  remember (String.length a) as n eqn:Hn.
  revert cur a Hn. induction n as [n IH] using lt_wf_ind. intros cur a Hn.
  destruct a as [|c a].
  - unfold newline. rewrite !str_app_nil_l, str_app_cons, str_app_nil_l.
    rewrite !splitlines_go_cons.
    assert (after_boundary LF b = b) as -> by (by destruct b).
    done.
  - rewrite !str_app_cons, !splitlines_go_cons.
    destruct (Py.islinebreak c) eqn:Hc.
    + destruct (after_boundary_page c a b Hc)
        as [(-> & -> & ->) | (Hne & -> & ->)].
      * case_bool_decide; [done|].
        unfold newline. rewrite str_app_cons, str_app_nil_l.
        rewrite !splitlines_go_cons.
        assert (after_boundary LF b = b) as -> by (by destruct b).
        done.
      * simpl. f_equal.
        apply (IH (String.length (after_boundary c a))); [|done].
        subst n. pose proof (after_boundary_length c a). simpl. lia.
    + apply (IH (String.length a)); [|done]. subst n. simpl. lia.
Qed.

Lemma splitlines_page a b :
  Py.splitlines (a +:+ newline +:+ b)
  = Py.splitlines (a +:+ newline) ++ Py.splitlines b.
Proof. apply splitlines_go_page. Qed.

Lemma fold_full_text pages acc :
  fold_left (fun acc page => acc +:+ page +:+ newline) pages acc
  = acc +:+ full_text pages.
Proof.
  unfold full_text. revert acc.
  induction pages as [|p pages IH]; intros acc; simpl.
  - by rewrite str_app_nil_r.
  - rewrite IH, (IH ("" +:+ p +:+ newline)).
    by rewrite str_app_nil_l, !str_app_assoc.
Qed.

Lemma full_text_cons page pages :
  full_text (page :: pages) = page +:+ newline +:+ full_text pages.
Proof.
  unfold full_text at 1. simpl. rewrite fold_full_text.
  by rewrite str_app_nil_l, str_app_assoc.
Qed.

Lemma data_lines_app l1 l2 :
  data_lines (l1 ++ l2) = data_lines l1 ++ data_lines l2.
Proof. unfold data_lines. by rewrite filter_app, fmap_app. Qed.

Lemma rows_by_page pages :
  omap row_of (data_lines (Py.splitlines (full_text pages)))
  = mjoin (page_rows <$> pages).
Proof.
  induction pages as [|p pages IH]; [done|].
  rewrite full_text_cons, splitlines_page, data_lines_app, omap_app.
  rewrite IH. done.
Qed.

(** X7: the pages are read one by one: a page never changes what the
    other pages give.  The rows of the document are the rows of its
    first page, then those of its second page, and so on, and the
    output file holds them in that order. *)
Theorem X7_rows_page_by_page pages :
  output_file (main pages) = csv_text (mjoin (page_rows <$> pages))
  /\ forall pages1 pages2,
       mjoin (page_rows <$> (pages1 ++ pages2))
       = mjoin (page_rows <$> pages1) ++ mjoin (page_rows <$> pages2).
Proof.
  split.
  - by rewrite main_output_file, rows_by_page.
  - intros pages1 pages2. by rewrite fmap_app, join_app.
Qed.

(** * Further properties of the round trip *)

(** What the reader makes of the file [main] wrote, whatever the
    records hold. *)
Lemma read_back (rows : list row) :
  read_csv (csv_text rows)
  = Some (Ok (DataFrame fieldnames
                ((fun r => to_cell <$> row_values r) <$> rows))).
Proof.
  unfold read_csv. rewrite run_csv_text.
  cbn [handle_eof state lines]. unfold frame_of.
  change (imap column_name fieldnames) with fieldnames.
  rewrite shape_rect.
  2: { apply Forall_fmap, Forall_forall. by intros r _. }
  rewrite decide_True.
  2: { apply (bool_decide_unpack _). by vm_compute. }
  do 3 f_equal. rewrite Nat.sub_diag.
  rewrite <- list_fmap_compose. by apply list_fmap_ext.
Qed.



(** X9: the date step of the loader does nothing to the file the
    extractor writes: its date column is named [Test Date], not
    [test_date], so the frame read from it goes on unchanged, its dates
    still texts. *)
Theorem X9_extractor_file_dates_untouched
    `{Loader.Libraries} (rows : list row) df :
  read_csv (csv_text rows) = Some (Ok df) ->
  Loader.normalize_dates df = Ok df
  /\ forall k r, rows !! k = Some r ->
       at_ df "Test Date" k = Some (to_cell (test_date r)).
Proof.
  rewrite read_back. intros [= <-]. split; [done|].
  intros k r Hk. unfold at_. simpl.
  rewrite list_lookup_fmap, Hk. done.
Qed.

Lemma X9_witness :
  exists df,
    read_csv (csv_text [na_record]) = Some (Ok df)
    /\ @Loader.normalize_dates sample_libraries df = Ok df
    /\ at_ df "Test Date" 0 = Some (Str "15-MAY-2025").
Proof.
  eexists. split; [apply read_back|].
  destruct (@X9_extractor_file_dates_untouched sample_libraries
              [na_record] _ (read_back [na_record])) as [Hnorm Hat].
  split; [exact Hnorm|]. by rewrite (Hat 0%nat na_record eq_refl).
Defined.

(** * Further properties of the loader *)

Lemma created_lookup name tbls :
  created name tbls !! name = Some (found name tbls).
Proof.
  unfold created, found. destruct (tbls !! name) as [t|] eqn:Ht; simpl.
  - done.
  - apply lookup_insert_eq.
Qed.


Lemma create_table_spec name w :
  Loader.create_table name w
  = (Ok (),
     Loader.World (Loader.environ w) (Loader.dotenv w) (Loader.files w)
       (created name (Loader.tables w)) (Loader.stdout w) (Loader.stderr w)
       (Loader.trace w ++ [Loader.Connect;
                           Loader.CreateTableIfNotExists name;
                           Loader.Commit])).
Proof.
  unfold Loader.create_table, Loader.bind, Loader.emit, Loader.get_tables,
    created. simpl.
  destruct (Loader.tables w !! name); simpl; by rewrite <- !app_assoc.
Qed.

(** [main] from its start to the insert. *)
Lemma main_stages `{Loader.Libraries} csv_path w :
  Loader.main csv_path w =
    if decide (missing_settings w = []) then
      match Loader.create_engine (engine_url w) with
      | Raise e => (Raise e, with_settings w)
      | Ok _ =>
          match Loader.files w !! csv_path with
          | None => (Raise (FileNotFoundError csv_path), with_settings w)
          | Some text =>
              match load_frame csv_path w with
              | Raise e =>
                  (Raise e,
                   (Loader.emit (Loader.ReadCsv csv_path)
                      (with_settings w)).2)
              | Ok df =>
                  let table := settings w !! "DB_TABLE" in
                  Loader.bind
                    (match table with
                     | Some name => Loader.to_sql name df
                     | None => Loader.to_sql_unnamed df
                     end)
                    (fun _ => Loader.print
                                (summary (length (data df)) table))
                    (at_insert csv_path (Loader.fmt table) w)
              end
          end
      end
    else (Raise (RuntimeError ("Missing required env vars: "
                               +:+ Py.join ", " (missing_settings w))),
          with_settings w).
Proof.
  unfold Loader.main. unfold Loader.bind at 1. rewrite load_env_spec.
  case_decide; [|done].
  destruct (cfg_get_config_of w) as (Hu & Hp & Hh & Hd & Ht).
  unfold Loader.bind, Loader.lift.
  rewrite Hu, Hp, Hh, Hd. fold (engine_url w).
  destruct (Loader.create_engine (engine_url w)) as [[]|e]; [|done].
  unfold Loader.read_file, load_frame. simpl.
  destruct (Loader.files w !! csv_path) as [text|]; [|done].
  unfold Loader.bind, Loader.emit, Loader.lift. simpl.
  destruct (Loader.pd_read_csv text) as [df|e]; [|done].
  destruct (Loader.normalize_dates df) as [df'|e]; [|done].
  rewrite create_table_spec. simpl. unfold at_insert, summary.
  rewrite <- !app_assoc. simpl.
  by destruct (settings w !! "DB_TABLE").
Qed.

(** ** [load_env] *)

Lemma missing_settings_nil w :
  missing_settings w = []
  <-> forall key var, (key, var) ∈ required ->
        Loader.unset (settings w !! var) = false.
Proof.
  split.
  - intros Hnil key var Hreq.
    destruct (Loader.unset (settings w !! var)) eqn:Hu; [|done].
    apply (missing_settings_iff w key var Hreq) in Hu.
    rewrite Hnil in Hu. by apply elem_of_nil in Hu.
  - intros Hall. unfold missing_settings, required. simpl.
    rewrite (Hall "host" "DB_HOST"), (Hall "user" "DB_USER"),
      (Hall "password" "DB_PASS"), (Hall "database" "DB_NAME");
      [done|unfold required; rewrite !elem_of_cons; auto..].
Qed.

Lemma missing_settings_order w :
  missing_settings w `sublist_of` ["host"; "user"; "password"; "database"].
Proof.
  unfold missing_settings, required. simpl.
  destruct (Loader.unset (settings w !! "DB_HOST")),
    (Loader.unset (settings w !! "DB_USER")),
    (Loader.unset (settings w !! "DB_PASS")),
    (Loader.unset (settings w !! "DB_NAME")); simpl;
    repeat first [apply sublist_nil | apply sublist_skip
                 | apply sublist_cons].
Qed.

(** X10: [load_env] returns exactly when each of the four required
    settings is set and not empty, whatever [DB_TABLE] is (not set,
    empty or a name); it then returns the five settings as they were
    read, under the keys host, user, password, database and table in
    that order.  When it raises, the error lists the missing keys in
    that same order. *)
Theorem X10_load_env_outcomes w :
  ((exists cfg w', Loader.load_env w = (Ok cfg, w'))
   <-> forall key var, (key, var) ∈ required ->
         Loader.unset (settings w !! var) = false)
  /\ (forall cfg w', Loader.load_env w = (Ok cfg, w') ->
        cfg = [("host", settings w !! "DB_HOST");
               ("user", settings w !! "DB_USER");
               ("password", settings w !! "DB_PASS");
               ("database", settings w !! "DB_NAME");
               ("table", settings w !! "DB_TABLE")])
  /\ (forall e w', Loader.load_env w = (Raise e, w') ->
        e = RuntimeError ("Missing required env vars: "
                          +:+ Py.join ", " (missing_settings w))
        /\ missing_settings w <> []
        /\ missing_settings w
           `sublist_of` ["host"; "user"; "password"; "database"]).
Proof.
  rewrite load_env_spec, <- missing_settings_nil.
  case_decide as Hm; (split; [|split]).
  - split; [done | intros _; by eexists _, _].
  - by intros cfg w' [= <- _].
  - done.
  - split; [by intros (cfg & w' & ?) | done].
  - done.
  - intros e w' [= <- _]. split; [done|]. split; [done|].
    apply missing_settings_order.
Qed.

Lemma X10_witness :
  exists cfg w', Loader.load_env empty_table_world = (Ok cfg, w').
Proof.
  apply (proj2 (proj1 (X10_load_env_outcomes empty_table_world))).
  intros key var Hreq. unfold required in Hreq.
  repeat (apply elem_of_cons in Hreq as [[= -> ->]|Hreq];
          [by vm_compute|]).
  by apply elem_of_nil in Hreq.
Defined.

(** ** [create_table] *)



(** ** The insert statement, once more *)

Lemma insert_rows_ok pk held new rs :
  Loader.insert_rows pk held new = Ok rs -> rs = held ++ new.
Proof.
  revert held. induction new as [|r new IH]; intros held;
    cbn [Loader.insert_rows].
  - intros [= <-]. by rewrite app_nil_r.
  - destruct (Loader.insert_row pk held r) as [held'|e] eqn:Hrow; [|done].
    apply insert_row_ok in Hrow as ->. intros Hrest.
    rewrite (IH _ Hrest). by rewrite <- app_assoc.
Qed.

Lemma insert_rows_error pk held new e :
  Loader.insert_rows pk held new = Raise e ->
  exists msg, e = IntegrityError msg.
Proof.
  revert held. induction new as [|r new IH]; intros held;
    cbn [Loader.insert_rows]; [done|].
  destruct (Loader.insert_row pk held r) as [held'|e'] eqn:Hrow.
  - apply IH.
  - intros [= <-]. by eapply insert_row_error.
Qed.

(** Two rows of one statement with the same key: the statement fails,
    whatever the table holds. *)
Lemma insert_rows_repeated key held new1 r1 new2 r2 new3 v :
  Loader.lookup_column key r1 = Some v ->
  Loader.lookup_column key r2 = Some v ->
  exists msg,
    Loader.insert_rows (Some key) held (new1 ++ r1 :: new2 ++ r2 :: new3)
    = Raise (IntegrityError msg).
Proof.
  intros Hr1 Hr2. revert held.
  induction new1 as [|r new1 IH]; intros held;
    rewrite ?app_nil_l, <- ?app_comm_cons; cbn [Loader.insert_rows].
  - destruct (Loader.insert_row (Some key) held r1) as [held'|e] eqn:Hrow.
    + apply insert_row_ok in Hrow as ->.
      apply (insert_rows_duplicate key _ _ r2 r1 v); [|set_solver|done..].
      set_solver.
    + apply insert_row_error in Hrow as [msg ->]. by eexists.
  - destruct (Loader.insert_row (Some key) held r) as [held'|e] eqn:Hrow.
    + apply IH.
    + apply insert_row_error in Hrow as [msg ->]. by eexists.
Qed.

(** What [to_sql] does to a table that is there. *)
Lemma to_sql_spec name df w t :
  Loader.tables w !! name = Some t ->
  Loader.to_sql name df w =
    match Loader.insert_rows (Loader.primary_key t) (Loader.rows t)
            (Loader.to_rows df) with
    | Ok rs =>
        (Ok (),
         Loader.World (Loader.environ w) (Loader.dotenv w) (Loader.files w)
           (<[name := Loader.Table (Loader.primary_key t) rs]>
              (Loader.tables w))
           (Loader.stdout w) (Loader.stderr w)
           (Loader.trace w ++ [Loader.Connect;
                               Loader.Insert name (length (data df));
                               Loader.Commit]))
    | Raise e =>
        (Raise e,
         Loader.World (Loader.environ w) (Loader.dotenv w) (Loader.files w)
           (Loader.tables w) (Loader.stdout w) (Loader.stderr w)
           (Loader.trace w ++ [Loader.Connect;
                               Loader.Insert name (length (data df));
                               Loader.Rollback]))
    end.
Proof.
  intros Ht. unfold Loader.to_sql, Loader.bind, Loader.emit,
    Loader.get_tables, Loader.ret, Loader.raise, Loader.set_tables. simpl.
  rewrite Ht. simpl.
  destruct (Loader.insert_rows _ _ _); simpl; by rewrite <- !app_assoc.
Qed.

(** ** [main], stage by stage *)

(** X12: with the required settings given and [DB_TABLE] not set,
    [main] still goes on after reading the file: it creates, if it is
    not there, a table whose name is the text None, and then hands
    [None] to [to_sql] as the name of the table. *)
Theorem X12_unset_table_name_reaches_database
    `{Loader.Libraries} csv_path w text df :
  missing_settings w = [] ->
  settings w !! "DB_TABLE" = None ->
  Loader.create_engine (engine_url w) = Ok () ->
  Loader.files w !! csv_path = Some text ->
  load_frame csv_path w = Ok df ->
  Loader.main csv_path w
  = Loader.bind (Loader.to_sql_unnamed df)
      (fun _ => Loader.print (summary (length (data df)) None))
      (at_insert csv_path "None" w)
  /\ Loader.tables (at_insert csv_path "None" w) !! "None"
     = Some (found "None" (Loader.tables w))
  /\ (Loader.tables w !! "None" = None ->
      found "None" (Loader.tables w) = Loader.Table (Some "icva_id") []).
Proof.
  intros Hmiss Htable Hengine Hfile Hframe.
  rewrite main_stages, decide_True, Hengine, Hfile, Hframe, Htable by done.
  split; [done|]. split.
  - simpl. apply created_lookup.
  - intros Hnone. unfold found. by rewrite Hnone.
Qed.

(** X13: a run of [main] that ends in an exception inserts nothing:
    the tables are what they were, but for the destination table, which
    may have been created, empty; and nothing is printed. *)
Theorem X13_failed_run_inserts_nothing
    `{Loader.Libraries} csv_path w name e w' :
  settings w !! "DB_TABLE" = Some name ->
  Loader.main csv_path w = (Raise e, w') ->
  (Loader.tables w' = Loader.tables w
   \/ Loader.tables w' = created name (Loader.tables w))
  /\ (forall n t, Loader.tables w !! n = Some t ->
        Loader.tables w' !! n = Some t)
  /\ Loader.stdout w' = Loader.stdout w.
Proof.
  intros Htable Hmain.
  assert (Hcases : (Loader.tables w' = Loader.tables w
                    \/ Loader.tables w' = created name (Loader.tables w))
                   /\ Loader.stdout w' = Loader.stdout w).
  { rewrite main_stages in Hmain. case_decide.
    2: { injection Hmain as _ <-. split; [by left | done]. }
    destruct (Loader.create_engine (engine_url w)) as [[]|e0].
    2: { injection Hmain as _ <-. split; [by left | done]. }
    destruct (Loader.files w !! csv_path) as [text|].
    2: { injection Hmain as _ <-. split; [by left | done]. }
    destruct (load_frame csv_path w) as [df|e0].
    2: { injection Hmain as _ <-. split; [by left | done]. }
    rewrite Htable in Hmain. simpl in Hmain. unfold Loader.bind in Hmain.
    rewrite (to_sql_spec name df _ (found name (Loader.tables w)))
      in Hmain by apply created_lookup.
    destruct (Loader.insert_rows _ _ _); [done|].
    injection Hmain as _ <-. split; [by right | done]. }
  destruct Hcases as [Htables Hout]. split; [done|]. split; [|done].
  intros n t Hn. destruct Htables as [-> | ->]; [done|].
  unfold created. destruct (Loader.tables w !! name) eqn:Hname; [done|].
  rewrite lookup_insert_ne; [done|]. intros <-. congruence.
Qed.

(** X14: a run of [main] that returns has appended to the destination
    table all the rows of the frame, in the order of the file, after
    the rows the table held, which are kept as they were; no other
    table has changed; and the summary printed gives the number of
    rows of the frame and the name of the table. *)
Theorem X14_successful_run_appends
    `{Loader.Libraries} csv_path w name w' :
  settings w !! "DB_TABLE" = Some name ->
  Loader.main csv_path w = (Ok (), w') ->
  exists df,
    load_frame csv_path w = Ok df
    /\ Loader.tables w'
       = <[name := Loader.Table
                     (Loader.primary_key (found name (Loader.tables w)))
                     (Loader.rows (found name (Loader.tables w))
                      ++ Loader.to_rows df)]> (Loader.tables w)
    /\ Loader.stdout w'
       = Loader.stdout w ++ [summary (length (data df)) (Some name)]
    /\ Loader.trace w'
       = Loader.trace w
         ++ [Loader.ReadCsv csv_path; Loader.Connect;
             Loader.CreateTableIfNotExists name; Loader.Commit;
             Loader.Connect; Loader.Insert name (length (data df));
             Loader.Commit].
Proof.
  intros Htable Hmain. rewrite main_stages in Hmain.
  case_decide; [|done].
  destruct (Loader.create_engine (engine_url w)) as [[]|e0]; [|done].
  destruct (Loader.files w !! csv_path) as [text|]; [|done].
  destruct (load_frame csv_path w) as [df|e0]; [|done].
  exists df. split; [done|].
  rewrite Htable in Hmain. simpl in Hmain. unfold Loader.bind in Hmain.
  rewrite (to_sql_spec name df _ (found name (Loader.tables w)))
    in Hmain by apply created_lookup.
  destruct (Loader.insert_rows _ _ _) as [rs|] eqn:Hins; [|done].
  apply insert_rows_ok in Hins as ->.
  injection Hmain as <-. simpl. split; [|split; [done|]].
  - unfold created. destruct (Loader.tables w !! name); [done|].
    apply insert_insert_eq.
  - by rewrite <- !app_assoc.
Qed.

(** X15: a file that gives the same key twice cannot be loaded, even
    into a table that holds nothing: the insert statement raises
    [IntegrityError], the table is left as [create_table] made or found
    it, and no summary is printed. *)
Theorem X15_repeated_key_in_file
    `{Loader.Libraries} csv_path w name text df key
    rows1 r1 rows2 r2 rows3 v :
  missing_settings w = [] ->
  settings w !! "DB_TABLE" = Some name ->
  Loader.create_engine (engine_url w) = Ok () ->
  Loader.files w !! csv_path = Some text ->
  load_frame csv_path w = Ok df ->
  Loader.primary_key (found name (Loader.tables w)) = Some key ->
  Loader.to_rows df = rows1 ++ r1 :: rows2 ++ r2 :: rows3 ->
  Loader.lookup_column key r1 = Some v ->
  Loader.lookup_column key r2 = Some v ->
  exists msg w',
    Loader.main csv_path w = (Raise (IntegrityError msg), w')
    /\ Loader.tables w' = created name (Loader.tables w)
    /\ Loader.stdout w' = Loader.stdout w.
Proof.
  intros Hmiss Htable Hengine Hfile Hframe Hpk Hrows Hr1 Hr2.
  rewrite main_stages, decide_True, Hengine, Hfile, Hframe, Htable by done.
  simpl. unfold Loader.bind.
  rewrite (to_sql_spec name df _ (found name (Loader.tables w)))
    by apply created_lookup.
  rewrite Hpk, Hrows.
  destruct (insert_rows_repeated key
              (Loader.rows (found name (Loader.tables w)))
              rows1 r1 rows2 r2 rows3 v Hr1 Hr2) as [msg ->].
  by eexists _, _.
Qed.

(** X16: when the file cannot be turned into a frame (it is not there,
    the reader raises, or a date does not convert), [main] raises that
    exception and the database is not reached: no connection, no
    statement, the tables as they were, nothing printed. *)
Theorem X16_no_frame_no_database `{Loader.Libraries} csv_path w e :
  missing_settings w = [] ->
  Loader.create_engine (engine_url w) = Ok () ->
  load_frame csv_path w = Raise e ->
  exists w',
    Loader.main csv_path w = (Raise e, w')
    /\ Loader.tables w' = Loader.tables w
    /\ Loader.stdout w' = Loader.stdout w
    /\ (Loader.trace w' = Loader.trace w
        \/ Loader.trace w' = Loader.trace w ++ [Loader.ReadCsv csv_path]).
Proof.
  intros Hmiss Hengine Hframe.
  rewrite main_stages, decide_True, Hengine by done.
  destruct (Loader.files w !! csv_path) as [text|] eqn:Hfile.
  - rewrite Hframe. eexists. split; [done|]. simpl. auto.
  - unfold load_frame in Hframe. rewrite Hfile in Hframe.
    injection Hframe as <-. eexists. split; [done|]. simpl. auto.
Qed.

(** ** One date that does not convert *)





Lemma X12_witness :
  Loader.tables
    (at_insert "vea_2025_results.csv" "None"
       (loader_world None two_rows_csv ∅)) !! "None"
  = Some (Loader.Table (Some "icva_id") []).
Proof.
  edestruct (@X12_unset_table_name_reaches_database sample_libraries
               "vea_2025_results.csv" (loader_world None two_rows_csv ∅))
    as (_ & Hfound & Hfresh).
  - by vm_compute.
  - by vm_compute.
  - reflexivity.
  - by vm_compute.
  - by vm_compute.
  - rewrite Hfound, Hfresh; [done | by vm_compute].
Defined.

Lemma X13_witness :
  exists e w',
    @Loader.main sample_libraries "vea_2025_results.csv" rerun_world
    = (Raise e, w')
    /\ Loader.tables w' !! "vea_2025"
       = Loader.tables rerun_world !! "vea_2025".
Proof.
  eexists _, _. split; [by vm_compute|].
  edestruct (@X13_failed_run_inserts_nothing sample_libraries
               "vea_2025_results.csv" rerun_world "vea_2025")
    as (_ & Hkept & _).
  - by vm_compute.
  - by vm_compute.
  - erewrite Hkept; by vm_compute.
Defined.

Lemma X14_witness :
  exists w' df,
    @Loader.main sample_libraries "vea_2025_results.csv"
      (loader_world (Some "vea_2025") two_rows_csv ∅) = (Ok (), w')
    /\ Loader.tables w'
       = {[ "vea_2025" :=
              Loader.Table (Some "icva_id") (Loader.to_rows df) ]}
    /\ Loader.stdout w' = ["✅ Loaded 2 rows into `vea_2025`."].
Proof.
  edestruct (@X14_successful_run_appends sample_libraries
               "vea_2025_results.csv"
               (loader_world (Some "vea_2025") two_rows_csv ∅) "vea_2025")
    as (df & Hframe & Htables & Hout & _).
  - by vm_compute.
  - by vm_compute.
  - eexists _, df. split; [by vm_compute|]. split.
    + rewrite Htables. reflexivity.
    + rewrite Hout. revert Hframe. vm_compute. by intros [= <-].
Defined.

Lemma X15_witness :
  exists msg w',
    @Loader.main sample_libraries "vea_2025_results.csv"
      (loader_world (Some "vea_2025") repeated_id_csv ∅)
    = (Raise (IntegrityError msg), w')
    /\ Loader.tables w'
       = {[ "vea_2025" := Loader.Table (Some "icva_id") [] ]}.
Proof.
  edestruct (@X15_repeated_key_in_file sample_libraries
               "vea_2025_results.csv"
               (loader_world (Some "vea_2025") repeated_id_csv ∅)
               "vea_2025" repeated_id_csv)
    with (key := "icva_id") (rows1 := @nil Loader.dbrow)
         (rows2 := @nil Loader.dbrow) (rows3 := @nil Loader.dbrow)
    as (msg & w' & Hmain & Htables & _).
  - by vm_compute.
  - by vm_compute.
  - reflexivity.
  - by vm_compute.
  - by vm_compute.
  - by vm_compute.
  - by vm_compute.
  - by vm_compute.
  - by vm_compute.
  - exists msg, w'. split; [exact Hmain|]. rewrite Htables. reflexivity.
Defined.

Lemma X16_witness :
  exists w',
    @Loader.main sample_libraries "vea_2025_results.csv"
      (loader_world (Some "vea_2025") bad_date_csv ∅)
    = (Raise (date_error "31-FEB-2025"), w')
    /\ Loader.tables w' = ∅.
Proof.
  edestruct (@X16_no_frame_no_database sample_libraries
               "vea_2025_results.csv"
               (loader_world (Some "vea_2025") bad_date_csv ∅)
               (date_error "31-FEB-2025"))
    as (w' & Hmain & Htables & _).
  - by vm_compute.
  - reflexivity.
  - by vm_compute.
  - exists w'. split; [exact Hmain | exact Htables].
Defined.

(** ** The script *)


